(** * Knock Shield example firmware: a shallow embedding and its properties

  The repository holds two Arduino sketches for the Bylund knock shield:

  - [Single]: the single-channel sketch (Knock_Shield_Example.ino, v1.1.0);
  - [Dual]: the dual-channel sketch with SD-card logging (v1.3.0).

  Both are straight-line programs over the Arduino core API.  The calls to
  the core (digitalWrite, SPI.transfer, analogRead, ...) are modelled as
  observable events; the values the hardware returns (SPI responses, ADC
  codes, SD-card presence) come from an environment that is universally
  quantified in every theorem. *)

From Stdlib Require Import ZArith List Bool String Ascii Lia QArith Qabs Qround.
From Stdlib Require Import Floats.SpecFloat.
Import ListNotations.
Open Scope Z_scope.

(** ** Fixed-width integers of the AVR target *)

Module CInt.

(** [uint8_t] / [byte]. *)
Definition to_uint8 (z : Z) : Z := z mod 256.

(** [uint16_t]. *)
Definition to_uint16 (z : Z) : Z := z mod 65536.

(** [long]: 32 bits, two's complement. *)
Definition long_min : Z := - 2 ^ 31.
Definition long_max : Z := 2 ^ 31 - 1.
Definition to_long (z : Z) : Z := (z + 2 ^ 31) mod 2 ^ 32 - 2 ^ 31.

Definition in_long (z : Z) : Prop := long_min <= z <= long_max.

End CInt.
Import CInt.

(** ** Single-precision floating point

  [float] on the target is IEEE 754 binary32: 24 bits of precision,
  round to nearest even.  The operations are those of the standard
  library's executable specification, instantiated at that format. *)

Module F32.

Definition prec : Z := 24.
Definition emax : Z := 128.

Definition float : Type := spec_float.

(** Conversion of an integer, as in [(float)x] and in the usual arithmetic
    conversions applied to an integer operand of a float operator. *)
Definition of_Z (z : Z) : float := binary_normalize prec emax z 0 false.

Definition div (x y : float) : float := SFdiv prec emax x y.
Definition mul (x y : float) : float := SFmul prec emax x y.

(** [x >= y] on floats. *)
Definition geb (x y : float) : bool := SFleb y x.
Definition leb (x y : float) : bool := SFleb x y.

(** The rational number a finite float denotes. *)
Definition to_Q (x : float) : option Q :=
  match x with
  | S754_zero _ => Some (0 # 1)%Q
  | S754_finite s m e =>
      let mag := match e with
                 | Zneg p => (Zpos m # Pos.pow 2 p)%Q
                 | _ => (Zpos m * 2 ^ e # 1)%Q
                 end in
      Some (if s then Qopp mag else mag)
  | _ => None
  end.

End F32.

(** ** The Arduino core *)

Module Arduino.

Inductive level := LOW | HIGH.
Inductive pin_mode := INPUT | OUTPUT.
Inductive bit_order := LSBFIRST | MSBFIRST.
Inductive data_mode := SPI_MODE0 | SPI_MODE1 | SPI_MODE2 | SPI_MODE3.
Inductive clock_divider := SPI_CLOCK_DIV4 | SPI_CLOCK_DIV16 | SPI_CLOCK_DIV64.
Inductive file_mode := FILE_READ | FILE_WRITE.

(** An Arduino [String] being assembled: literal characters and numbers
    rendered with a number of decimal places ([String(x, 0)]). *)
Inductive chunk :=
  | Chars (s : string)
  | Decimal (x : F32.float) (places : Z).
Definition text := list chunk.

(** One call into the core, with its arguments and, for the calls that
    read from the hardware, the value read. *)
Inductive event :=
  | SerialBegin (baud : Z)
  | SerialPrint (s : string)
  | SerialPrintHex (v : Z)
  | SerialPrintFloat (x : F32.float) (places : Z)
  | SerialPrintln (s : string)
  | SerialPrintlnText (t : text)
  | SPIBegin
  | SPISetClockDivider (d : clock_divider)
  | SPISetBitOrder (o : bit_order)
  | SPISetDataMode (m : data_mode)
  | SPITransfer (tx rx : Z)
  | PinMode (pin : Z) (m : pin_mode)
  | DigitalWrite (pin : Z) (v : level)
  | Delay (ms : Z)
  | DelayMicroseconds (us : Z)
  | AnalogRead (pin : Z) (value : Z)
  | AnalogWrite (pin : Z) (duty : Z)
  | SDBegin (cs : Z) (ok : bool)
  | SDOpen (name : string) (m : file_mode)
  | FilePrintln (t : text)
  | FileClose.

(** What the hardware answers: the byte shifted in by the k-th SPI
    transfer, the code of the k-th A/D conversion, and whether the k-th
    [SD.begin] finds a card. *)
Record env := Env {
  spi_rx : nat -> Z;
  adc_in : nat -> Z;
  sd_present : nat -> bool
  }.

(** How many answers of each kind have been consumed. *)
Record cursor := Cursor {
  spi_k : nat;
  adc_k : nat;
  sd_k : nat
  }.

Definition cursor0 : cursor := Cursor 0 0 0.

(** A command runs in an environment, over the sketch's global variables
    [G] and the cursor, and yields a result, the new state and the events
    it emitted, oldest first. *)
Definition M (G A : Type) : Type := env -> G * cursor -> A * (G * cursor) * list event.

Definition ret {G A} (a : A) : M G A := fun _ s => (a, s, []).

Definition bind {G A B} (c : M G A) (k : A -> M G B) : M G B :=
  fun e s =>
    let '(a, s1, t1) := c e s in
    let '(b, s2, t2) := k a e s1 in
    (b, s2, t1 ++ t2).

Definition emit {G} (ev : event) : M G unit := fun _ s => (tt, s, [ev]).

Definition get_global {G} : M G G := fun _ s => (fst s, s, []).
Definition set_global {G} (g : G) : M G unit := fun _ s => (tt, (g, snd s), []).

Definition result {G A} (c : M G A) (e : env) (s : G * cursor) : A := fst (fst (c e s)).
Definition state_after {G A} (c : M G A) (e : env) (s : G * cursor) : G * cursor :=
  snd (fst (c e s)).
Definition trace {G A} (c : M G A) (e : env) (s : G * cursor) : list event := snd (c e s).

Declare Scope sketch_scope.
Delimit Scope sketch_scope with sketch.
Notation "x <- c ;; k" := (bind c (fun x => k))
  (at level 61, c at next level, right associativity) : sketch_scope.
Notation "c ;; k" := (bind c (fun _ => k))
  (at level 61, right associativity) : sketch_scope.

Section Core.
Context {G : Type}.

Definition Serial_begin (baud : Z) : M G unit := emit (SerialBegin baud).
Definition Serial_print (s : string) : M G unit := emit (SerialPrint s).
Definition Serial_print_HEX (v : Z) : M G unit := emit (SerialPrintHex v).
Definition Serial_print_float (x : F32.float) (places : Z) : M G unit :=
  emit (SerialPrintFloat x places).
Definition Serial_println (s : string) : M G unit := emit (SerialPrintln s).
Definition Serial_println_text (t : text) : M G unit := emit (SerialPrintlnText t).

Definition SPI_begin : M G unit := emit SPIBegin.
Definition SPI_setClockDivider (d : clock_divider) : M G unit := emit (SPISetClockDivider d).
Definition SPI_setBitOrder (o : bit_order) : M G unit := emit (SPISetBitOrder o).
Definition SPI_setDataMode (m : data_mode) : M G unit := emit (SPISetDataMode m).

(** [SPI.transfer]: shifts one byte out and returns the byte shifted in. *)
Definition SPI_transfer (tx : Z) : M G Z :=
  fun e s =>
    let '(g, c) := s in
    let rx := to_uint8 (spi_rx e (spi_k c)) in
    (rx, (g, Cursor (S (spi_k c)) (adc_k c) (sd_k c)), [SPITransfer tx rx]).

Definition pinMode (pin : Z) (m : pin_mode) : M G unit := emit (PinMode pin m).
Definition digitalWrite (pin : Z) (v : level) : M G unit := emit (DigitalWrite pin v).
Definition delay (ms : Z) : M G unit := emit (Delay ms).
Definition delayMicroseconds (us : Z) : M G unit := emit (DelayMicroseconds us).

(** [analogRead]: one A/D conversion. *)
Definition analogRead (pin : Z) : M G Z :=
  fun e s =>
    let '(g, c) := s in
    let v := adc_in e (adc_k c) in
    (v, (g, Cursor (spi_k c) (S (adc_k c)) (sd_k c)), [AnalogRead pin v]).

Definition analogWrite (pin : Z) (duty : Z) : M G unit := emit (AnalogWrite pin duty).

(** [SD.begin]: true when the card answers. *)
Definition SD_begin (cs : Z) : M G bool :=
  fun e s =>
    let '(g, c) := s in
    let ok := sd_present e (sd_k c) in
    (ok, (g, Cursor (spi_k c) (adc_k c) (S (sd_k c))), [SDBegin cs ok]).

Definition SD_open (name : string) (m : file_mode) : M G unit := emit (SDOpen name m).
Definition File_println (t : text) : M G unit := emit (FilePrintln t).
Definition File_close : M G unit := emit FileClose.

(** The first [n] rounds of a loop that never exits. *)
Fixpoint forever (body : M G unit) (n : nat) : M G unit :=
  match n with
  | O => ret tt
  | S k => bind body (fun _ => forever body k)
  end.

End Core.

(** [map] of the core (WMath.cpp):
    [return (x - in_min) * (out_max - out_min) / (in_max - in_min) + out_min;]
    on [long] operands; [/] truncates towards zero. *)
Definition map (x in_min in_max out_min out_max : Z) : Z :=
  to_long
    (to_long (Z.quot (to_long (to_long (x - in_min) * to_long (out_max - out_min)))
                     (to_long (in_max - in_min)))
     + out_min).

(** The product formed inside [map], before any wrap-around. *)
Definition map_product (x in_min out_min out_max : Z) : Z :=
  (x - in_min) * (out_max - out_min).

(** The two characters of ["\n\r"]. *)
Definition nl_cr : string :=
  String (ascii_of_nat 10) (String (ascii_of_nat 13) EmptyString).

End Arduino.

Import Arduino.
Open Scope sketch_scope.

(** ** Register values and pin assignments shared by both sketches *)

Definition SPU_SET_PRESCALAR_6MHz : Z := 68.        (* 0b01000100 *)
Definition SPU_SET_CHANNEL_1 : Z := 224.            (* 0b11100000 *)
Definition SPU_SET_CHANNEL_2 : Z := 225.            (* 0b11100001 *)
Definition SPU_SET_BAND_PASS_FREQUENCY : Z := 42.   (* 0b00101010 *)
Definition SPU_SET_PROGRAMMABLE_GAIN : Z := 162.    (* 0b10100010 *)
Definition SPU_SET_INTEGRATOR_TIME : Z := 202.      (* 0b11001010 *)
Definition KNOCK_THRESHOLD_LEVEL : Z := 204.
Definition MEASUREMENT_WINDOW_TIME : Z := 3000.

Definition SPU_NSS_PIN : Z := 10.
Definition SDCARD_CS_PIN : Z := 9.
Definition SPU_TEST_PIN : Z := 5.
Definition SPU_HOLD_PIN : Z := 4.
Definition LED_STATUS : Z := 7.
Definition LED_LIMIT : Z := 6.
Definition ANALOG_INPUT_PIN : Z := 0.
Definition ANALOG_OUTPUT_PIN : Z := 3.

(** ** The single-channel sketch *)

Module Single.
Local Open Scope string_scope.

(** The sketch has no global variables. *)
Definition globals : Type := unit.
Definition init : globals * cursor := (tt, cursor0).

Definition COM_SPI (TX_data : Z) : M globals Z :=
  digitalWrite SPU_NSS_PIN LOW ;;
  Response <- SPI_transfer TX_data ;;
  digitalWrite SPU_NSS_PIN HIGH ;;
  Serial_print "SPU_SPI: 0x" ;;
  Serial_print_HEX Response ;;
  Serial_print nl_cr ;;
  ret Response.

Definition setup : M globals unit :=
  Serial_begin 9600 ;;
  SPI_begin ;;
  SPI_setClockDivider SPI_CLOCK_DIV16 ;;
  SPI_setBitOrder MSBFIRST ;;
  SPI_setDataMode SPI_MODE1 ;;
  pinMode SPU_NSS_PIN OUTPUT ;;
  pinMode SPU_TEST_PIN OUTPUT ;;
  pinMode SPU_HOLD_PIN OUTPUT ;;
  pinMode LED_STATUS OUTPUT ;;
  pinMode LED_LIMIT OUTPUT ;;
  digitalWrite SPU_NSS_PIN HIGH ;;
  digitalWrite SPU_TEST_PIN HIGH ;;
  digitalWrite SPU_HOLD_PIN LOW ;;
  Serial_print ("Device reset." ++ nl_cr) ;;
  digitalWrite LED_STATUS HIGH ;;
  digitalWrite LED_LIMIT HIGH ;;
  delay 200 ;;
  digitalWrite LED_STATUS LOW ;;
  digitalWrite LED_LIMIT LOW ;;
  delay 200 ;;
  _ <- COM_SPI SPU_SET_PRESCALAR_6MHz ;;
  _ <- COM_SPI SPU_SET_CHANNEL_1 ;;
  _ <- COM_SPI SPU_SET_BAND_PASS_FREQUENCY ;;
  _ <- COM_SPI SPU_SET_PROGRAMMABLE_GAIN ;;
  _ <- COM_SPI SPU_SET_INTEGRATOR_TIME ;;
  ret tt.

(** [float knock_percentage = ((float)adcValue_UA / 1023) * 100;] *)
Definition knock_percentage (adcValue_UA : Z) : F32.float :=
  F32.mul (F32.div (F32.of_Z adcValue_UA) (F32.of_Z 1023)) (F32.of_Z 100).

(** [uint8_t analogOutput = map(adcValue_UA, 0, 1023, 0, 255);] *)
Definition analogOutput (adcValue_UA : Z) : Z :=
  to_uint8 (map adcValue_UA 0 1023 0 255).

(** [if (knock_percentage >= 80) ... HIGH ... else ... LOW] *)
Definition limit_level (knock_percentage : F32.float) : level :=
  if F32.geb knock_percentage (F32.of_Z 80) then HIGH else LOW.

(** One round of the [while (1)] loop. *)
Definition loop_body : M globals unit :=
  digitalWrite LED_STATUS HIGH ;;
  digitalWrite SPU_HOLD_PIN HIGH ;;
  delayMicroseconds MEASUREMENT_WINDOW_TIME ;;
  digitalWrite SPU_HOLD_PIN LOW ;;
  adc <- analogRead ANALOG_INPUT_PIN ;;
  let adcValue_UA := to_uint16 adc in
  let knock_percentage := knock_percentage adcValue_UA in
  let analogOutput := analogOutput adcValue_UA in
  analogWrite ANALOG_OUTPUT_PIN analogOutput ;;
  digitalWrite LED_LIMIT (limit_level knock_percentage) ;;
  Serial_print "SPU KNOCK LEVEL: " ;;
  Serial_print_float knock_percentage 0 ;;
  Serial_print ("%" ++ nl_cr) ;;
  delay 100 ;;
  digitalWrite LED_STATUS LOW ;;
  delay 400.

(** [loop]: the first [n] rounds of the infinite loop. *)
Definition loop (n : nat) : M globals unit := forever loop_body n.

(** Power-up: [setup], then [loop]. *)
Definition sketch (n : nat) : M globals unit := setup ;; loop n.

End Single.

(** ** The dual-channel sketch with data logging *)

Module Dual.
Local Open Scope string_scope.

(** The one global variable. *)
Record globals := Globals { logEnabled : bool }.

(** [bool logEnabled = false;] *)
Definition init : globals * cursor := (Globals false, cursor0).

Definition COM_SPI (TX_data : Z) : M globals Z :=
  SPI_setDataMode SPI_MODE1 ;;
  SPI_setClockDivider SPI_CLOCK_DIV16 ;;
  digitalWrite SPU_NSS_PIN LOW ;;
  rx <- SPI_transfer TX_data ;;
  let Response := to_uint16 rx in
  digitalWrite SPU_NSS_PIN HIGH ;;
  ret (to_uint8 Response).

Definition logData (logString : text) : M globals unit :=
  ok <- SD_begin SDCARD_CS_PIN ;;
  if ok then
    SD_open "log.txt" FILE_WRITE ;;
    File_println logString ;;
    File_close
  else
    Serial_println "Error accessing SD-card.".

Definition setup : M globals unit :=
  Serial_begin 9600 ;;
  SPI_begin ;;
  SPI_setBitOrder MSBFIRST ;;
  pinMode SPU_NSS_PIN OUTPUT ;;
  pinMode SDCARD_CS_PIN OUTPUT ;;
  pinMode SPU_TEST_PIN OUTPUT ;;
  pinMode SPU_HOLD_PIN OUTPUT ;;
  pinMode LED_STATUS OUTPUT ;;
  pinMode LED_LIMIT OUTPUT ;;
  digitalWrite SPU_NSS_PIN HIGH ;;
  digitalWrite SDCARD_CS_PIN HIGH ;;
  digitalWrite SPU_TEST_PIN HIGH ;;
  digitalWrite SPU_HOLD_PIN LOW ;;
  Serial_print ("Device reset." ++ nl_cr) ;;
  digitalWrite LED_STATUS HIGH ;;
  digitalWrite LED_LIMIT HIGH ;;
  delay 200 ;;
  digitalWrite LED_STATUS LOW ;;
  digitalWrite LED_LIMIT LOW ;;
  delay 200 ;;
  ok <- SD_begin SDCARD_CS_PIN ;;
  (if ok then
     Serial_println "Data logging enabled." ;;
     set_global (Globals true)
   else ret tt) ;;
  Serial_print "Configuring SPU: 0x" ;;
  r1 <- COM_SPI SPU_SET_PRESCALAR_6MHz ;;
  Serial_print_HEX r1 ;;
  Serial_print ", 0x" ;;
  r2 <- COM_SPI SPU_SET_BAND_PASS_FREQUENCY ;;
  Serial_print_HEX r2 ;;
  Serial_print ", 0x" ;;
  r3 <- COM_SPI SPU_SET_PROGRAMMABLE_GAIN ;;
  Serial_print_HEX r3 ;;
  Serial_print ", 0x" ;;
  r4 <- COM_SPI SPU_SET_INTEGRATOR_TIME ;;
  Serial_print_HEX r4 ;;
  Serial_print nl_cr.

(** [float knockChannelN = ((float)adcChannelN / 1023) * 100;] *)
Definition knock_percentage (adcChannel : Z) : F32.float :=
  F32.mul (F32.div (F32.of_Z adcChannel) (F32.of_Z 1023)) (F32.of_Z 100).

(** [if (adcChannel1 < adcChannel2) adcValue = adcChannel2; else adcValue = adcChannel1;] *)
Definition highest (adcChannel1 adcChannel2 : Z) : Z :=
  if (adcChannel1 <? adcChannel2)%Z then adcChannel2 else adcChannel1.

(** [uint8_t analogOutput = map(adcValue, 0, 1023, 0, 255);] *)
Definition analogOutput (adcValue : Z) : Z :=
  to_uint8 (map adcValue 0 1023 0 255).

(** [if (analogOutput >= KNOCK_THRESHOLD_LEVEL) ... HIGH ... else ... LOW] *)
Definition limit_level (analogOutput : Z) : level :=
  if (KNOCK_THRESHOLD_LEVEL <=? analogOutput)%Z then HIGH else LOW.

(** The line assembled in [txString]. *)
Definition txString (knockChannel1 knockChannel2 : F32.float) : text :=
  [Chars "Channel 1: "; Decimal knockChannel1 0;
   Chars "% - Channel 2: "; Decimal knockChannel2 0; Chars "%"].

(** One round of the [while (1)] loop. *)
Definition loop_body : M globals unit :=
  digitalWrite LED_STATUS HIGH ;;
  _ <- COM_SPI SPU_SET_CHANNEL_1 ;;
  digitalWrite SPU_HOLD_PIN HIGH ;;
  delayMicroseconds MEASUREMENT_WINDOW_TIME ;;
  digitalWrite SPU_HOLD_PIN LOW ;;
  adc1 <- analogRead ANALOG_INPUT_PIN ;;
  let adcChannel1 := to_uint16 adc1 in
  _ <- COM_SPI SPU_SET_CHANNEL_2 ;;
  digitalWrite SPU_HOLD_PIN HIGH ;;
  delayMicroseconds MEASUREMENT_WINDOW_TIME ;;
  digitalWrite SPU_HOLD_PIN LOW ;;
  adc2 <- analogRead ANALOG_INPUT_PIN ;;
  let adcChannel2 := to_uint16 adc2 in
  let knockChannel1 := knock_percentage adcChannel1 in
  let knockChannel2 := knock_percentage adcChannel2 in
  let adcValue := highest adcChannel1 adcChannel2 in
  let analogOutput := analogOutput adcValue in
  analogWrite ANALOG_OUTPUT_PIN analogOutput ;;
  digitalWrite LED_LIMIT (limit_level analogOutput) ;;
  let txString := txString knockChannel1 knockChannel2 in
  Serial_println_text txString ;;
  g <- get_global ;;
  (if logEnabled g then logData txString else ret tt) ;;
  delay 100 ;;
  digitalWrite LED_STATUS LOW ;;
  delay 400.

(** [loop]: the first [n] rounds of the infinite loop. *)
Definition loop (n : nat) : M globals unit := forever loop_body n.

(** Power-up: [setup], then [loop]. *)
Definition sketch (n : nat) : M globals unit := setup ;; loop n.

End Dual.

(** ** What the specification says of the signal conditioner *)

Module Spec.

(** [raw_to_percentage(raw) = raw/1023*100], a float. *)
Definition raw_to_percentage (raw : Z) : F32.float :=
  F32.mul (F32.div (F32.of_Z raw) (F32.of_Z 1023)) (F32.of_Z 100).

(** The exact quotient [raw * 100 / 1023]. *)
Definition exact_percentage (raw : Z) : Q := (raw * 100 # 1023)%Q.

(** [is_limit_exceeded(output) = output >= 204]. *)
Definition is_limit_exceeded (output : Z) : bool := 204 <=? output.

End Spec.

(** ** Observations on a trace *)

Module Obs.

(** The levels written to [pin], in order. *)
Definition writes_to (pin : Z) (t : list event) : list level :=
  flat_map (fun ev => match ev with
                      | DigitalWrite p v => if p =? pin then [v] else []
                      | _ => []
                      end) t.

(** The duty cycles written to [pin], in order. *)
Definition duties (pin : Z) (t : list event) : list Z :=
  flat_map (fun ev => match ev with
                      | AnalogWrite p d => if p =? pin then [d] else []
                      | _ => []
                      end) t.

(** The bytes sent over SPI, in order. *)
Definition spi_bytes (t : list event) : list Z :=
  flat_map (fun ev => match ev with
                      | SPITransfer tx _ => [tx]
                      | _ => []
                      end) t.

(** The calls the SD library receives. *)
Definition is_sd_event (ev : event) : bool :=
  match ev with
  | SDBegin _ _ | SDOpen _ _ | FilePrintln _ | FileClose => true
  | _ => false
  end.

(** The events of the measurement protocol: SPI transfers, writes to the
    hold pin, microsecond waits and A/D conversions. *)
Definition is_window_event (ev : event) : bool :=
  match ev with
  | SPITransfer _ _ => true
  | DigitalWrite p _ => p =? SPU_HOLD_PIN
  | DelayMicroseconds _ => true
  | AnalogRead _ _ => true
  | _ => false
  end.

(** One measurement window on the channel selected by [select], answered
    by the [i]-th SPI response and the [j]-th conversion. *)
Definition window (select : Z) (e : env) (i j : nat) : list event :=
  [SPITransfer select (to_uint8 (spi_rx e i));
   DigitalWrite SPU_HOLD_PIN HIGH;
   DelayMicroseconds 3000;
   DigitalWrite SPU_HOLD_PIN LOW;
   AnalogRead ANALOG_INPUT_PIN (adc_in e j)].

(** All the events of one channel's measurement in the dual-channel sketch:
  the framed channel-select transfer, then the window. *)
Definition dual_acquisition (select : Z) (e : env) (i j : nat) : list event :=
  [SPISetDataMode SPI_MODE1;
   SPISetClockDivider SPI_CLOCK_DIV16;
   DigitalWrite SPU_NSS_PIN LOW;
   SPITransfer select (to_uint8 (spi_rx e i));
   DigitalWrite SPU_NSS_PIN HIGH;
   DigitalWrite SPU_HOLD_PIN HIGH;
   DelayMicroseconds 3000;
   DigitalWrite SPU_HOLD_PIN LOW;
   AnalogRead ANALOG_INPUT_PIN (adc_in e j)].

(** The line a round of the dual-channel sketch prints and logs, from the
  [j]-th and the next conversion. *)
Definition dual_line (e : env) (j : nat) : text :=
  Dual.txString (Dual.knock_percentage (to_uint16 (adc_in e j)))
                (Dual.knock_percentage (to_uint16 (adc_in e (S j)))).

(** A round of the dual-channel sketch up to the point where it logs. *)
Definition dual_round_head (e : env) (i j : nat) : list event :=
  let output :=
    Dual.analogOutput (Dual.highest (to_uint16 (adc_in e j))
                                    (to_uint16 (adc_in e (S j)))) in
  DigitalWrite LED_STATUS HIGH
  :: dual_acquisition SPU_SET_CHANNEL_1 e i j
  ++ dual_acquisition SPU_SET_CHANNEL_2 e (S i) (S j)
  ++ [AnalogWrite ANALOG_OUTPUT_PIN output;
      DigitalWrite LED_LIMIT (Dual.limit_level output);
      SerialPrintlnText (dual_line e j)].

(** Channel 1 then channel 2, for [n] rounds. *)
Fixpoint dual_windows (e : env) (i j : nat) (n : nat) : list event :=
  match n with
  | O => []
  | S k => window SPU_SET_CHANNEL_1 e i j
           ++ window SPU_SET_CHANNEL_2 e (S i) (S j)
           ++ dual_windows e (2 + i) (2 + j) k
  end.

(** The SPU side of the bus: released (no transfer in progress), selected
    (chip select driven low, byte not yet exchanged), exchanged (byte
    exchanged, chip select still low). *)
Inductive bus := Released | Selected | Exchanged.

(** The moves that keep chip select low exactly around one byte exchange;
    any other move is refused. *)
Definition bus_step (b : bus) (ev : event) : option bus :=
  match b, ev with
  | Released, DigitalWrite p v =>
      if p =? SPU_NSS_PIN
      then match v with LOW => Some Selected | HIGH => Some Released end
      else Some Released
  | Released, SPITransfer _ _ => None
  | Released, _ => Some Released
  | Selected, SPITransfer _ _ => Some Exchanged
  | Selected, _ => None
  | Exchanged, DigitalWrite p v =>
      if p =? SPU_NSS_PIN
      then match v with LOW => None | HIGH => Some Released end
      else None
  | Exchanged, _ => None
  end.

Fixpoint bus_run (b : bus) (t : list event) : option bus :=
  match t with
  | [] => Some b
  | ev :: t' =>
      match bus_step b ev with
      | Some b' => bus_run b' t'
      | None => None
      end
  end.

(** The level chip select is driven to: high when released, low otherwise. *)
Definition bus_level (b : bus) : level :=
  match b with
  | Released => HIGH
  | Selected | Exchanged => LOW
  end.

(** The level of the chip-select pin after the writes of [t], from level [d]. *)
Definition nss_after (d : level) (t : list event) : level :=
  fold_left (fun lv ev => match ev with
                          | DigitalWrite p v => if p =? SPU_NSS_PIN then v else lv
                          | _ => lv
                          end) t d.

(** The status LED over [n] rounds. *)
Fixpoint heartbeat (n : nat) : list level :=
  match n with
  | O => []
  | S k => HIGH :: LOW :: heartbeat k
  end.

End Obs.

(** ** Test benches *)

Module Bench.

(** Every conversion yields [code]; the SPU answers 0; the card answers
  according to [card]. *)
Definition steady (code : Z) (card : bool) : env :=
  Env (fun _ => 0) (fun _ => code) (fun _ => card).

End Bench.

(** ** Checks run over all ADC codes *)

Module Check.

(** [P] holds of 0, 1, ..., n-1. *)
Fixpoint all_below (n : nat) (P : Z -> bool) : bool :=
  match n with
  | O => true
  | S k => P (Z.of_nat k) && all_below k P
  end.

Definition nonneg (x : F32.float) : bool :=
  match x with
  | S754_zero _ => true
  | S754_finite false _ _ => true
  | _ => false
  end.

(** Two roundings, each within half a unit in the last place. *)
Definition rounding_error : Q := (1 # 8388608)%Q.

Definition near_exact (r : Z) (x : F32.float) : bool :=
  match F32.to_Q x with
  | Some q =>
      Qle_bool (Qabs (q - Spec.exact_percentage r))
               (Spec.exact_percentage r * rounding_error)
  | None => false
  end.

Definition level_eqb (a b : level) : bool :=
  match a, b with
  | LOW, LOW | HIGH, HIGH => true
  | _, _ => false
  end.

(** Everything that is checked of the percentage of one code. *)
Definition percentage_check (r : Z) : bool :=
  let p := Single.knock_percentage r in
  nonneg p
  && near_exact r p
  && F32.leb (F32.of_Z 0) p
  && F32.leb p (F32.of_Z 100)
  && Bool.eqb (SFeqb p (F32.of_Z 0)) (r =? 0)
  && Bool.eqb (SFeqb p (F32.of_Z 100)) (r =? 1023)
  && level_eqb (Single.limit_level p) (if 819 <=? r then HIGH else LOW).

Definition adjacent_check (r : Z) : bool :=
  F32.leb (Single.knock_percentage r) (Single.knock_percentage (r + 1)).

End Check.
Import Check.

(** ** Further observations and monitors *)

Module Watch.

(** Running a monitor over a trace; [None] when a move is refused. *)
Fixpoint run {Q : Type} (step : Q -> event -> option Q) (q : Q) (t : list event)
  : option Q :=
  match t with
  | [] => Some q
  | ev :: t' =>
      match step q ev with
      | Some q' => run step q' t'
      | None => None
      end
  end.

(** The time spent in [delay], in milliseconds. *)
Definition ms_delayed (t : list event) : Z :=
  fold_right (fun ev acc => match ev with Delay ms => ms + acc | _ => acc end) 0 t.

(** The time spent in [delayMicroseconds], in microseconds. *)
Definition us_delayed (t : list event) : Z :=
  fold_right (fun ev acc => match ev with DelayMicroseconds us => us + acc | _ => acc end) 0 t.

(** The numbers printed in hexadecimal, in order. *)
Definition hex_printed (t : list event) : list Z :=
  flat_map (fun ev => match ev with SerialPrintHex v => [v] | _ => [] end) t.

(** The lines appended to the log file, in order. *)
Definition logged (t : list event) : list text :=
  flat_map (fun ev => match ev with FilePrintln l => [l] | _ => [] end) t.

(** The assembled lines printed on the serial port, in order. *)
Definition printed_lines (t : list event) : list text :=
  flat_map (fun ev => match ev with SerialPrintlnText l => [l] | _ => [] end) t.

(** The plain strings printed with [Serial.println], in order. *)
Definition printed_messages (t : list event) : list string :=
  flat_map (fun ev => match ev with SerialPrintln m => [m] | _ => [] end) t.

(** The A/D conversions of [n] rounds of the single-channel sketch, from
    the [j]-th conversion on, each inside its window. *)
Fixpoint single_windows (e : env) (j : nat) (n : nat) : list event :=
  match n with
  | O => []
  | S k => [DigitalWrite SPU_HOLD_PIN HIGH;
            DelayMicroseconds 3000;
            DigitalWrite SPU_HOLD_PIN LOW;
            AnalogRead ANALOG_INPUT_PIN (adc_in e j)]
           ++ single_windows e (S j) k
  end.

(** The code the dual-channel sketch rescales in the round that starts at
    the [j]-th conversion. *)
Definition dual_code (e : env) (j : nat) : Z :=
  Dual.highest (to_uint16 (adc_in e j)) (to_uint16 (adc_in e (S j))).

(** The codes of [n] consecutive rounds of the dual-channel sketch. *)
Fixpoint dual_codes (e : env) (j : nat) (n : nat) : list Z :=
  match n with
  | O => []
  | S k => dual_code e j :: dual_codes e (2 + j) k
  end.

(** The lines of [n] consecutive rounds of the dual-channel sketch. *)
Fixpoint dual_lines (e : env) (j : nat) (n : nat) : list text :=
  match n with
  | O => []
  | S k => Obs.dual_line e j :: dual_lines e (2 + j) k
  end.

(** [n] times channel 1 then channel 2. *)
Fixpoint channel_selects (n : nat) : list Z :=
  match n with
  | O => []
  | S k => SPU_SET_CHANNEL_1 :: SPU_SET_CHANNEL_2 :: channel_selects k
  end.

(** The hold line: idle (low, nothing to sample), integrating (high, wait
    not yet done), waited (high, wait done), frozen (low, value not yet
    sampled). *)
Inductive hold := Idle | Integrating | Waited | Frozen.

(** A window is hold high, one wait of the window time, hold low; a
    conversion samples a frozen value, once; nothing else happens while the
    line is high. *)
Definition hold_step (h : hold) (ev : event) : option hold :=
  match ev with
  | DigitalWrite p v =>
      if p =? SPU_HOLD_PIN
      then match h, v with
           | Idle, HIGH => Some Integrating
           | Idle, LOW => Some Idle
           | Waited, LOW => Some Frozen
           | _, _ => None
           end
      else match h with Idle | Frozen => Some h | _ => None end
  | DelayMicroseconds us =>
      match h with
      | Integrating => if us =? MEASUREMENT_WINDOW_TIME then Some Waited else None
      | _ => None
      end
  | AnalogRead p _ =>
      match h with
      | Frozen => if p =? ANALOG_INPUT_PIN then Some Idle else None
      | _ => None
      end
  | _ => match h with Idle | Frozen => Some h | _ => None end
  end.

(** What has been initialised: the serial port, the SPI bus, and the pins
    configured as outputs. *)
Record ready := Ready {
  serial_on : bool;
  spi_on : bool;
  outputs : list Z
  }.

Definition ready0 : ready := Ready false false [].

(** Printing needs the serial port begun, SPI calls need the bus begun, and
    [digitalWrite] needs the pin configured as an output. *)
Definition ready_step (r : ready) (ev : event) : option ready :=
  match ev with
  | SerialBegin _ => Some (Ready true (spi_on r) (outputs r))
  | SerialPrint _ | SerialPrintHex _ | SerialPrintFloat _ _
  | SerialPrintln _ | SerialPrintlnText _ =>
      if serial_on r then Some r else None
  | SPIBegin => Some (Ready (serial_on r) true (outputs r))
  | SPISetClockDivider _ | SPISetBitOrder _ | SPISetDataMode _ | SPITransfer _ _ =>
      if spi_on r then Some r else None
  | PinMode p OUTPUT => Some (Ready (serial_on r) (spi_on r) (p :: outputs r))
  | PinMode p INPUT =>
      Some (Ready (serial_on r) (spi_on r) (filter (fun q => negb (q =? p)) (outputs r)))
  | DigitalWrite p _ => if existsb (Z.eqb p) (outputs r) then Some r else None
  | _ => Some r
  end.

(** The SPI data mode and clock divider in force, when known. *)
Record settings := Settings {
  mode : option data_mode;
  divider : option clock_divider
  }.

(** [SPI.begin] and every call of the SD library may leave any mode and
    divider behind; a transfer to the SPU needs mode 1 and divider 16. *)
Definition settings_step (c : settings) (ev : event) : option settings :=
  match ev with
  | SPISetDataMode m => Some (Settings (Some m) (divider c))
  | SPISetClockDivider d => Some (Settings (mode c) (Some d))
  | SPIBegin | SDBegin _ _ | SDOpen _ _ | FilePrintln _ | FileClose =>
      Some (Settings None None)
  | SPITransfer _ _ =>
      match mode c, divider c with
      | Some SPI_MODE1, Some SPI_CLOCK_DIV16 => Some c
      | _, _ => None
      end
  | _ => Some c
  end.

(** What start-up leaves initialised in the single-channel sketch. *)
Definition single_ready : ready :=
  Ready true true [LED_LIMIT; LED_STATUS; SPU_HOLD_PIN; SPU_TEST_PIN; SPU_NSS_PIN].

(** What start-up leaves initialised in the dual-channel sketch. *)
Definition dual_ready : ready :=
  Ready true true
    [LED_LIMIT; LED_STATUS; SPU_HOLD_PIN; SPU_TEST_PIN; SDCARD_CS_PIN; SPU_NSS_PIN].

(** The settings the SPU needs. *)
Definition spu_settings : settings := Settings (Some SPI_MODE1) (Some SPI_CLOCK_DIV16).

(** The lines [n] rounds with logging on append to the file, from the
    [j]-th conversion and the [k]-th probe of the card on. *)
Fixpoint dual_logged (e : env) (j k : nat) (n : nat) : list text :=
  match n with
  | O => []
  | S m => (if sd_present e k then [Obs.dual_line e j] else [])
           ++ dual_logged e (2 + j) (S k) m
  end.

(** The error messages [n] rounds with logging on print, from the [k]-th
    probe of the card on. *)
Fixpoint dual_errors (e : env) (k : nat) (n : nat) : list string :=
  match n with
  | O => []
  | S m => (if sd_present e k then [] else ["Error accessing SD-card."%string])
           ++ dual_errors e (S k) m
  end.

(** A card that is missing at start-up and present ever after. *)
Definition late_card : env :=
  Env (fun _ => 0) (fun _ => 700) (fun k => match k with O => false | S _ => true end).

End Watch.

(** * Properties *)

(** ** Integer arithmetic of the rescale *)

Section Rescale.

Lemma to_long_id (z : Z) : in_long z -> to_long z = z.
Proof.
  unfold in_long, long_min, long_max, to_long. intros H.
  rewrite Z.mod_small; lia.
Qed.

Lemma to_uint8_id (z : Z) : 0 <= z <= 255 -> to_uint8 z = z.
Proof. intros H. unfold to_uint8. apply Z.mod_small. lia. Qed.

Lemma to_uint16_id (z : Z) : 0 <= z <= 1023 -> to_uint16 z = z.
Proof. intros H. unfold to_uint16. apply Z.mod_small. lia. Qed.

(** The product [raw * 255] formed by [map] fits a [long]. *)
Lemma map_product_in_long (r : Z) :
  0 <= r <= 1023 -> in_long (map_product r 0 0 255).
Proof.
  unfold map_product, in_long, long_min, long_max. intros H.
  change (2 ^ 31) with 2147483648. lia.
Qed.

Lemma scaled_bounds (r : Z) : 0 <= r <= 1023 -> 0 <= r * 255 / 1023 <= 255.
Proof.
  intros H. split.
  - apply Z.div_pos; lia.
  - apply Z.div_le_upper_bound; lia.
Qed.

(** On ADC codes, [map] is the truncated quotient and nothing wraps. *)
Lemma map_adc (r : Z) :
  0 <= r <= 1023 -> map r 0 1023 0 255 = r * 255 / 1023.
Proof.
  intros H. pose proof (scaled_bounds r H) as Hb.
  assert (L : forall z, -2147483648 <= z <= 2147483647 -> to_long z = z).
  { intros z Hz. apply to_long_id. unfold in_long, long_min, long_max.
    change (2 ^ 31) with 2147483648. lia. }
  unfold map.
  rewrite (L (r - 0)) by lia.
  rewrite (L (255 - 0)) by lia.
  rewrite (L (1023 - 0)) by lia.
  replace (r - 0) with r by lia.
  change (255 - 0) with 255. change (1023 - 0) with 1023.
  rewrite (L (r * 255)) by lia.
  rewrite Z.quot_div_nonneg by lia.
  rewrite (L (r * 255 / 1023)) by lia.
  rewrite Z.add_0_r. apply L. lia.
Qed.

Lemma scaled_mono (r1 r2 : Z) : r1 <= r2 -> r1 * 255 / 1023 <= r2 * 255 / 1023.
Proof. intros H. apply Z.div_le_mono; lia. Qed.

Lemma single_analogOutput_eq (r : Z) :
  0 <= r <= 1023 -> Single.analogOutput r = r * 255 / 1023.
Proof.
  intros H. unfold Single.analogOutput. rewrite map_adc by exact H.
  apply to_uint8_id, scaled_bounds, H.
Qed.

Lemma dual_analogOutput_eq (r : Z) :
  0 <= r <= 1023 -> Dual.analogOutput r = r * 255 / 1023.
Proof.
  intros H. unfold Dual.analogOutput. rewrite map_adc by exact H.
  apply to_uint8_id, scaled_bounds, H.
Qed.

(** The output reaches the threshold exactly from code 819 on. *)
Lemma scaled_threshold (r : Z) :
  0 <= r <= 1023 -> (KNOCK_THRESHOLD_LEVEL <= r * 255 / 1023 <-> 819 <= r).
Proof.
  intros H. unfold KNOCK_THRESHOLD_LEVEL. split; intros H1.
  - destruct (Z_lt_le_dec r 819) as [Hlt | Hge]; [ | exact Hge].
    assert (r * 255 / 1023 <= 818 * 255 / 1023) by (apply scaled_mono; lia).
    change (818 * 255 / 1023) with 203 in *. lia.
  - assert (819 * 255 / 1023 <= r * 255 / 1023) by (apply scaled_mono; lia).
    change (819 * 255 / 1023) with 204 in *. lia.
Qed.

Lemma highest_max (a b : Z) : Dual.highest a b = Z.max a b.
Proof. unfold Dual.highest. destruct (Z.ltb_spec a b); lia. Qed.

End Rescale.

(** ** Checking all ADC codes *)

Section Exhaustive.

Lemma all_below_spec (n : nat) (P : Z -> bool) :
  all_below n P = true -> forall r, 0 <= r < Z.of_nat n -> P r = true.
Proof.
  induction n as [ | k IH]; intros H r Hr.
  - simpl in Hr. lia.
  - simpl in H. apply andb_true_iff in H. destruct H as [Hk Hrest].
    destruct (Z.eq_dec r (Z.of_nat k)) as [-> | Hne].
    + exact Hk.
    + apply IH; [exact Hrest | lia].
Qed.

Lemma all_codes (P : Z -> bool) :
  all_below 1024 P = true -> forall r, 0 <= r <= 1023 -> P r = true.
Proof.
  intros H r Hr. apply (all_below_spec 1024 P H).
  change (Z.of_nat 1024) with 1024. lia.
Qed.

End Exhaustive.

(** ** The order of non-negative floats *)

Module F32Order.

Lemma leb_refl (x : F32.float) : nonneg x = true -> F32.leb x x = true.
Proof.
  destruct x as [s | s | | s m e]; simpl; try discriminate; try reflexivity.
  destruct s; [discriminate | intros _].
  unfold F32.leb, SFleb, SFcompare.
  rewrite Z.compare_refl.
  change (Pos.compare_cont Eq m m) with (Pos.compare m m).
  rewrite Pos.compare_refl. reflexivity.
Qed.

Lemma leb_finite (m1 m2 : positive) (e1 e2 : Z) :
  F32.leb (S754_finite false m1 e1) (S754_finite false m2 e2) = true <->
  e1 < e2 \/ (e1 = e2 /\ (m1 <= m2)%positive).
Proof.
  unfold F32.leb, SFleb, SFcompare.
  change (Pos.compare_cont Eq m1 m2) with (Pos.compare m1 m2).
  destruct (Z.compare_spec e1 e2) as [He | He | He].
  - destruct (Pos.compare_spec m1 m2) as [Hm | Hm | Hm]; split; intros H;
      try reflexivity; try discriminate; try (right; split; [exact He | lia]).
    destruct H as [H | [_ H]]; lia.
  - split; intros _; [left; exact He | reflexivity].
  - split; intros H; [discriminate | lia].
Qed.

Lemma leb_trans (x y z : F32.float) :
  nonneg x = true -> nonneg y = true -> nonneg z = true ->
  F32.leb x y = true -> F32.leb y z = true -> F32.leb x z = true.
Proof.
  destruct x as [sx | sx | | sx mx ex]; simpl; try discriminate;
    destruct y as [sy | sy | | sy my ey]; simpl; try discriminate;
    destruct z as [sz | sz | | sz mz ez]; simpl; try discriminate;
    try (destruct sx; try discriminate);
    try (destruct sy; try discriminate);
    try (destruct sz; try discriminate);
    intros _ _ _; try (intros _ _; reflexivity);
    try (intros H; discriminate H); try (intros _ H; discriminate H).
  rewrite !leb_finite. lia.
Qed.

End F32Order.

(** ** The knock percentage, code by code *)

Section Percentage.


Lemma level_eqb_eq (a b : level) : level_eqb a b = true <-> a = b.
Proof. destruct a, b; simpl; split; intros H; congruence. Qed.

Lemma percentage_checked : all_below 1024 percentage_check = true.
Proof. vm_compute. reflexivity. Qed.

Lemma adjacent_checked : all_below 1023 adjacent_check = true.
Proof. vm_compute. reflexivity. Qed.

Variable r : Z.
Hypothesis Hr : 0 <= r <= 1023.

Let checked : percentage_check r = true := all_codes _ percentage_checked r Hr.

Lemma percentage_nonneg : nonneg (Single.knock_percentage r) = true.
Proof.
  pose proof checked as H. unfold percentage_check in H.
  repeat (apply andb_true_iff in H; destruct H as [H ?]). exact H.
Qed.

Lemma percentage_near_exact :
  exists q, F32.to_Q (Single.knock_percentage r) = Some q /\
            (Qabs (q - Spec.exact_percentage r) <= Spec.exact_percentage r * rounding_error)%Q.
Proof.
  pose proof checked as H. unfold percentage_check in H.
  repeat (apply andb_true_iff in H; destruct H as [H ?]).
  match goal with H1 : near_exact _ _ = true |- _ => rename H1 into Hn end.
  unfold near_exact in Hn.
  destruct (F32.to_Q (Single.knock_percentage r)) as [q | ]; [ | discriminate].
  exists q. split; [reflexivity | ]. apply Qle_bool_iff. exact Hn.
Qed.

Lemma percentage_range :
  F32.leb (F32.of_Z 0) (Single.knock_percentage r) = true /\
  F32.leb (Single.knock_percentage r) (F32.of_Z 100) = true.
Proof.
  pose proof checked as H. unfold percentage_check in H.
  repeat (apply andb_true_iff in H; destruct H as [H ?]).
  split; assumption.
Qed.

Lemma percentage_zero_iff :
  SFeqb (Single.knock_percentage r) (F32.of_Z 0) = true <-> r = 0.
Proof.
  pose proof checked as H. unfold percentage_check in H.
  repeat (apply andb_true_iff in H; destruct H as [H ?]).
  match goal with H1 : Bool.eqb _ (r =? 0) = true |- _ => apply Bool.eqb_prop in H1; rewrite H1 end.
  apply Z.eqb_eq.
Qed.

Lemma percentage_full_iff :
  SFeqb (Single.knock_percentage r) (F32.of_Z 100) = true <-> r = 1023.
Proof.
  pose proof checked as H. unfold percentage_check in H.
  repeat (apply andb_true_iff in H; destruct H as [H ?]).
  match goal with H1 : Bool.eqb _ (r =? 1023) = true |- _ => apply Bool.eqb_prop in H1; rewrite H1 end.
  apply Z.eqb_eq.
Qed.

(** The single-channel limit test, as a function of the code. *)
Lemma single_limit_iff :
  Single.limit_level (Single.knock_percentage r) = HIGH <-> 819 <= r.
Proof.
  pose proof checked as H. unfold percentage_check in H.
  repeat (apply andb_true_iff in H; destruct H as [H ?]).
  match goal with H1 : level_eqb _ _ = true |- _ => apply level_eqb_eq in H1; rewrite H1 end.
  destruct (Z.leb_spec 819 r); split; intros; try lia; try reflexivity; try discriminate.
Qed.

End Percentage.

Section PercentageOrder.

Lemma percentage_step (r : Z) :
  0 <= r < 1023 ->
  F32.leb (Single.knock_percentage r) (Single.knock_percentage (r + 1)) = true.
Proof.
  intros H. apply (all_below_spec 1023 adjacent_check adjacent_checked).
  change (Z.of_nat 1023) with 1023. lia.
Qed.

Lemma percentage_mono_nat (d : nat) (r : Z) :
  0 <= r -> r + Z.of_nat d <= 1023 ->
  F32.leb (Single.knock_percentage r) (Single.knock_percentage (r + Z.of_nat d)) = true.
Proof.
  induction d as [ | d IH]; intros H0 H1.
  - rewrite Z.add_0_r. apply F32Order.leb_refl, percentage_nonneg. lia.
  - apply (F32Order.leb_trans _ (Single.knock_percentage (r + Z.of_nat d))).
    + apply percentage_nonneg. lia.
    + apply percentage_nonneg. lia.
    + apply percentage_nonneg. lia.
    + apply IH; lia.
    + replace (r + Z.of_nat (S d)) with (r + Z.of_nat d + 1) by lia.
      apply percentage_step. lia.
Qed.

Lemma percentage_mono (r1 r2 : Z) :
  0 <= r1 -> r1 <= r2 -> r2 <= 1023 ->
  F32.leb (Single.knock_percentage r1) (Single.knock_percentage r2) = true.
Proof.
  intros H0 H1 H2.
  replace r2 with (r1 + Z.of_nat (Z.to_nat (r2 - r1))) by lia.
  apply percentage_mono_nat; lia.
Qed.

End PercentageOrder.

(** ** Running commands in sequence *)

Section Sequencing.
Context {G : Type}.

Lemma trace_bind {A B} (c : M G A) (k : A -> M G B) (e : env) (s : G * cursor) :
  trace (bind c k) e s =
  trace c e s ++ trace (k (result c e s)) e (state_after c e s).
Proof.
  unfold trace, result, state_after, bind.
  destruct (c e s) as [[a s1] t1]. simpl.
  destruct (k a e s1) as [[b s2] t2]. reflexivity.
Qed.

Lemma state_after_bind {A B} (c : M G A) (k : A -> M G B) (e : env) (s : G * cursor) :
  state_after (bind c k) e s =
  state_after (k (result c e s)) e (state_after c e s).
Proof.
  unfold result, state_after, bind.
  destruct (c e s) as [[a s1] t1]. simpl.
  destruct (k a e s1) as [[b s2] t2]. reflexivity.
Qed.

Lemma trace_forever_S (body : M G unit) (n : nat) (e : env) (s : G * cursor) :
  trace (forever body (S n)) e s =
  trace body e s ++ trace (forever body n) e (state_after body e s).
Proof. simpl. rewrite trace_bind. reflexivity. Qed.

Lemma state_after_forever_S (body : M G unit) (n : nat) (e : env) (s : G * cursor) :
  state_after (forever body (S n)) e s =
  state_after (forever body n) e (state_after body e s).
Proof. simpl. rewrite state_after_bind. reflexivity. Qed.

End Sequencing.

Section Observations.

Lemma writes_to_app (pin : Z) (t1 t2 : list event) :
  Obs.writes_to pin (t1 ++ t2) = Obs.writes_to pin t1 ++ Obs.writes_to pin t2.
Proof. apply flat_map_app. Qed.

Lemma bus_run_app (b : Obs.bus) (t1 t2 : list event) :
  Obs.bus_run b (t1 ++ t2) =
  match Obs.bus_run b t1 with
  | Some b' => Obs.bus_run b' t2
  | None => None
  end.
Proof.
  revert b. induction t1 as [ | ev t1 IH]; intros b; simpl.
  - reflexivity.
  - destruct (Obs.bus_step b ev) as [b' | ]; [apply IH | reflexivity].
Qed.

End Observations.

(** ** One round of each sketch *)

(** Runs a command on a symbolic state, leaving the signal arithmetic
    folded. *)
Ltac run_round :=
  lazy -[Single.knock_percentage Single.analogOutput Single.limit_level
         Dual.knock_percentage Dual.analogOutput Dual.limit_level Dual.highest
         to_uint8 to_uint16 Init.Nat.add].

Section Rounds.

(** A round of the dual-channel sketch consumes two SPI responses and two
    conversions, probes the card when logging is on, and leaves the global
    variable alone. *)
Lemma dual_loop_body_state (e : env) (s : Dual.globals * cursor) :
  state_after Dual.loop_body e s =
  (fst s, Cursor (2 + spi_k (snd s)) (2 + adc_k (snd s))
                 (if Dual.logEnabled (fst s) then S (sd_k (snd s)) else sd_k (snd s))).
Proof.
  destruct s as [[b] [i j k]], e as [rx adc sd]. unfold state_after.
  destruct b; run_round; [destruct (sd k) | ]; reflexivity.
Qed.

Lemma dual_loop_body_windows (e : env) (s : Dual.globals * cursor) :
  filter Obs.is_window_event (trace Dual.loop_body e s) =
  Obs.window SPU_SET_CHANNEL_1 e (spi_k (snd s)) (adc_k (snd s))
  ++ Obs.window SPU_SET_CHANNEL_2 e (S (spi_k (snd s))) (S (adc_k (snd s))).
Proof.
  destruct s as [[b] [i j k]], e as [rx adc sd]. unfold trace.
  destruct b; run_round; [destruct (sd k) | ]; reflexivity.
Qed.

Lemma single_loop_body_state (e : env) (s : Single.globals * cursor) :
  state_after Single.loop_body e s =
  (fst s, Cursor (spi_k (snd s)) (S (adc_k (snd s))) (sd_k (snd s))).
Proof. destruct s as [[] [i j k]]. reflexivity. Qed.

End Rounds.

(** ** The measurement protocol of the dual-channel sketch *)

Section Protocol.

Lemma dual_loop_body_prefix (e : env) (s : Dual.globals * cursor) :
  exists rest,
    trace Dual.loop_body e s =
      DigitalWrite LED_STATUS HIGH
      :: Obs.dual_acquisition SPU_SET_CHANNEL_1 e (spi_k (snd s)) (adc_k (snd s))
      ++ Obs.dual_acquisition SPU_SET_CHANNEL_2 e (S (spi_k (snd s))) (S (adc_k (snd s)))
      ++ rest
    /\ filter Obs.is_window_event rest = [].
Proof.
  destruct s as [[b] [i j k]], e as [rx adc sd]. unfold trace.
  destruct b; [destruct (sd k) eqn:Hsd | ];
    eexists; (split; [run_round; try rewrite Hsd; reflexivity | reflexivity]).
Qed.

Lemma dual_loop_windows (n : nat) (e : env) (s : Dual.globals * cursor) :
  filter Obs.is_window_event (trace (Dual.loop n) e s) =
  Obs.dual_windows e (spi_k (snd s)) (adc_k (snd s)) n.
Proof.
  unfold Dual.loop. revert s. induction n as [ | n IH]; intros s.
  - reflexivity.
  - rewrite trace_forever_S, filter_app, dual_loop_body_windows, IH.
    rewrite dual_loop_body_state. cbn [snd spi_k adc_k Obs.dual_windows].
    rewrite <- app_assoc. reflexivity.
Qed.

(** C1. In every round of the dual-channel sketch the events of channel 1's
    measurement (select byte over SPI, hold pin high, a 3000 microsecond
    wait, hold pin low, A/D conversion) come first and in that order,
    followed without interleaving by the same sequence for channel 2; no
    other protocol event occurs in the round, and the protocol events of
    [n] rounds are [n] repetitions of that pair of windows. *)
Theorem dual_measurement_order :
  (forall (e : env) (s : Dual.globals * cursor),
      exists rest,
        trace Dual.loop_body e s =
          DigitalWrite LED_STATUS HIGH
          :: Obs.dual_acquisition SPU_SET_CHANNEL_1 e (spi_k (snd s)) (adc_k (snd s))
          ++ Obs.dual_acquisition SPU_SET_CHANNEL_2 e (S (spi_k (snd s))) (S (adc_k (snd s)))
          ++ rest
        /\ filter Obs.is_window_event rest = [])
  /\ (forall (e : env) (s : Dual.globals * cursor),
         filter Obs.is_window_event (trace Dual.loop_body e s) =
         Obs.window SPU_SET_CHANNEL_1 e (spi_k (snd s)) (adc_k (snd s))
         ++ Obs.window SPU_SET_CHANNEL_2 e (S (spi_k (snd s))) (S (adc_k (snd s))))
  /\ (forall (n : nat) (e : env) (s : Dual.globals * cursor),
         filter Obs.is_window_event (trace (Dual.loop n) e s) =
         Obs.dual_windows e (spi_k (snd s)) (adc_k (snd s)) n).
Proof.
  split; [ | split].
  - exact dual_loop_body_prefix.
  - exact dual_loop_body_windows.
  - exact dual_loop_windows.
Qed.

End Protocol.

(** ** The outputs of one round *)

Section Outputs.

Lemma single_round_duty (e : env) (s : Single.globals * cursor) :
  Obs.duties ANALOG_OUTPUT_PIN (trace Single.loop_body e s) =
  [Single.analogOutput (to_uint16 (adc_in e (adc_k (snd s))))].
Proof. destruct s as [[] [i j k]], e as [rx adc sd]. reflexivity. Qed.

Lemma single_round_limit (e : env) (s : Single.globals * cursor) :
  Obs.writes_to LED_LIMIT (trace Single.loop_body e s) =
  [Single.limit_level (Single.knock_percentage (to_uint16 (adc_in e (adc_k (snd s)))))].
Proof. destruct s as [[] [i j k]], e as [rx adc sd]. reflexivity. Qed.

Lemma dual_round_duty (e : env) (s : Dual.globals * cursor) :
  Obs.duties ANALOG_OUTPUT_PIN (trace Dual.loop_body e s) =
  [Dual.analogOutput (Dual.highest (to_uint16 (adc_in e (adc_k (snd s))))
                                   (to_uint16 (adc_in e (S (adc_k (snd s))))))].
Proof.
  destruct s as [[b] [i j k]], e as [rx adc sd]. unfold trace.
  destruct b; run_round; [destruct (sd k) | ]; reflexivity.
Qed.

Lemma dual_round_limit (e : env) (s : Dual.globals * cursor) :
  Obs.writes_to LED_LIMIT (trace Dual.loop_body e s) =
  [Dual.limit_level
     (Dual.analogOutput (Dual.highest (to_uint16 (adc_in e (adc_k (snd s))))
                                      (to_uint16 (adc_in e (S (adc_k (snd s)))))))].
Proof.
  destruct s as [[b] [i j k]], e as [rx adc sd]. unfold trace.
  destruct b; run_round; [destruct (sd k) | ]; reflexivity.
Qed.

Lemma dual_limit_iff (output : Z) :
  Dual.limit_level output = HIGH <-> 204 <= output.
Proof.
  unfold Dual.limit_level, KNOCK_THRESHOLD_LEVEL.
  destruct (Z.leb_spec 204 output); split; intros H0; try reflexivity; try discriminate; lia.
Qed.

Lemma analogOutput_max (raw1 raw2 : Z) :
  0 <= raw1 <= 1023 -> 0 <= raw2 <= 1023 ->
  Dual.analogOutput (Z.max raw1 raw2) =
  Z.max (Dual.analogOutput raw1) (Dual.analogOutput raw2).
Proof.
  intros H1 H2.
  rewrite (dual_analogOutput_eq raw1 H1), (dual_analogOutput_eq raw2 H2).
  destruct (Z.max_spec raw1 raw2) as [[Hlt ->] | [Hle ->]].
  - rewrite (dual_analogOutput_eq raw2 H2).
    symmetry. apply Z.max_r, scaled_mono. lia.
  - rewrite (dual_analogOutput_eq raw1 H1).
    symmetry. apply Z.max_l, scaled_mono. lia.
Qed.

(** C2. In a round of the dual-channel sketch whose two conversions yield
    codes within 0..1023 (ties included), the value written to the analog
    output and tested against the limit is the rescale of the larger code,
    which is also the larger of the two rescaled codes. *)
Theorem dual_combined_output (e : env) (s : Dual.globals * cursor)
  (H1 : 0 <= adc_in e (adc_k (snd s)) <= 1023)
  (H2 : 0 <= adc_in e (S (adc_k (snd s))) <= 1023) :
  let raw1 := adc_in e (adc_k (snd s)) in
  let raw2 := adc_in e (S (adc_k (snd s))) in
  Obs.duties ANALOG_OUTPUT_PIN (trace Dual.loop_body e s) =
    [Dual.analogOutput (Z.max raw1 raw2)]
  /\ Obs.writes_to LED_LIMIT (trace Dual.loop_body e s) =
       [Dual.limit_level (Dual.analogOutput (Z.max raw1 raw2))]
  /\ Dual.analogOutput (Z.max raw1 raw2) =
       Z.max (Dual.analogOutput raw1) (Dual.analogOutput raw2).
Proof.
  intros raw1 raw2. subst raw1 raw2.
  rewrite dual_round_duty, dual_round_limit.
  rewrite !to_uint16_id by assumption. rewrite highest_max.
  split; [reflexivity | split; [reflexivity | ]].
  apply analogOutput_max; assumption.
Qed.

(** A round with 700 on both channels. *)
Lemma dual_combined_output_witness :
  0 <= adc_in (Bench.steady 700 false) 0 <= 1023
  /\ Obs.duties ANALOG_OUTPUT_PIN (trace Dual.loop_body (Bench.steady 700 false) Dual.init) =
       [Dual.analogOutput (Z.max 700 700)]
  /\ Obs.writes_to LED_LIMIT (trace Dual.loop_body (Bench.steady 700 false) Dual.init) =
       [Dual.limit_level (Dual.analogOutput (Z.max 700 700))]
  /\ Dual.analogOutput (Z.max 700 700) =
       Z.max (Dual.analogOutput 700) (Dual.analogOutput 700).
Proof.
  split; [simpl; lia | ].
  apply (dual_combined_output (Bench.steady 700 false) Dual.init); simpl; lia.
Defined.

End Outputs.

(** ** The signal conditioner *)

Section Conditioner.

(** C4. On every ADC code the analog output of both sketches is the
    truncated (equally, floored) quotient of [r * 255] by 1023, lies within
    0..255 and does not decrease when the code grows; it is the duty cycle
    the single-channel round writes. *)
Theorem analog_output_rescale (r r' : Z)
  (Hr : 0 <= r) (Hrr : r <= r') (Hr' : r' <= 1023) :
  Single.analogOutput r = Z.quot (r * 255) 1023
  /\ Dual.analogOutput r = Z.quot (r * 255) 1023
  /\ Single.analogOutput r = Qfloor ((r # 1023) * (255 # 1))
  /\ 0 <= Single.analogOutput r <= 255
  /\ Single.analogOutput r <= Single.analogOutput r'
  /\ Dual.analogOutput r <= Dual.analogOutput r'
  /\ (forall (e : env) (s : Single.globals * cursor),
         Obs.duties ANALOG_OUTPUT_PIN (trace Single.loop_body e s) =
         [Single.analogOutput (to_uint16 (adc_in e (adc_k (snd s))))])
  /\ to_uint16 r = r.
Proof.
  assert (R : 0 <= r <= 1023) by lia.
  assert (R' : 0 <= r' <= 1023) by lia.
  rewrite !(single_analogOutput_eq r R), !(dual_analogOutput_eq r R).
  rewrite (single_analogOutput_eq r' R'), (dual_analogOutput_eq r' R').
  rewrite Z.quot_div_nonneg by lia.
  split; [reflexivity | split; [reflexivity | ]].
  split; [unfold Qfloor, Qmult; simpl Qnum; simpl Qden; reflexivity | ].
  split; [apply scaled_bounds, R | ].
  split; [apply scaled_mono, Hrr | ].
  split; [apply scaled_mono, Hrr | ].
  split; [exact single_round_duty | apply to_uint16_id, R].
Qed.

Lemma analog_output_rescale_witness :
  0 <= 818 /\ 818 <= 819 /\ 819 <= 1023
  /\ Single.analogOutput 818 <= Single.analogOutput 819.
Proof.
  split; [lia | split; [lia | split; [lia | ]]].
  apply (analog_output_rescale 818 819); lia.
Defined.

(** C10. On every ADC code the product [raw * 255] that [map] forms fits
    the 32-bit [long] it is computed in, the result of [map] is the exact
    quotient and lies within 0..255, and storing it into the 8-bit
    [analogOutput] leaves it unchanged, in both sketches. *)
Theorem analog_output_no_overflow (r : Z) (Hr : 0 <= r <= 1023) :
  in_long (map_product r 0 0 255)
  /\ map r 0 1023 0 255 = (r - 0) * (255 - 0) / (1023 - 0) + 0
  /\ 0 <= map r 0 1023 0 255 <= 255
  /\ Single.analogOutput r = map r 0 1023 0 255
  /\ Dual.analogOutput r = map r 0 1023 0 255.
Proof.
  pose proof (scaled_bounds r Hr) as Hb.
  rewrite (single_analogOutput_eq r Hr), (dual_analogOutput_eq r Hr).
  rewrite (map_adc r Hr).
  split; [apply map_product_in_long, Hr | ].
  split.
  - rewrite Z.add_0_r. replace (r - 0) with r by lia. reflexivity.
  - split; [exact Hb | split; reflexivity].
Qed.

Lemma analog_output_no_overflow_witness :
  0 <= 1023 <= 1023
  /\ in_long (map_product 1023 0 0 255)
  /\ Single.analogOutput 1023 = map 1023 0 1023 0 255.
Proof.
  split; [lia | ].
  pose proof (analog_output_no_overflow 1023 ltac:(lia)) as H.
  split; [apply H | apply H].
Defined.

(** C3. The limit LED of the dual-channel sketch is driven high exactly
    when the analog output is at least 204, as [is_limit_exceeded] says (low
    at 0 and 203, high at 204 and 255); on every ADC code the single-channel sketch, which tests
    the percentage against 80, drives it high exactly when its analog output
    is at least 204; in both sketches the level written in a round is that
    decision on the round's code. *)
Theorem limit_indicator_threshold (output r : Z) (Hr : 0 <= r <= 1023) :
  (Dual.limit_level output = HIGH <-> 204 <= output)
  /\ (Dual.limit_level output = HIGH <-> Spec.is_limit_exceeded output = true)
  /\ Dual.limit_level 0 = LOW /\ Dual.limit_level 203 = LOW
  /\ Dual.limit_level 204 = HIGH /\ Dual.limit_level 255 = HIGH
  /\ (Single.limit_level (Single.knock_percentage r) = HIGH <->
      204 <= Single.analogOutput r)
  /\ (Dual.limit_level (Dual.analogOutput r) = HIGH <->
      204 <= Dual.analogOutput r)
  /\ (forall (e : env) (s : Single.globals * cursor),
         Obs.writes_to LED_LIMIT (trace Single.loop_body e s) =
         [Single.limit_level
            (Single.knock_percentage (to_uint16 (adc_in e (adc_k (snd s)))))])
  /\ (forall (e : env) (s : Dual.globals * cursor),
         Obs.writes_to LED_LIMIT (trace Dual.loop_body e s) =
         [Dual.limit_level
            (Dual.analogOutput
               (Dual.highest (to_uint16 (adc_in e (adc_k (snd s))))
                             (to_uint16 (adc_in e (S (adc_k (snd s)))))))]).
Proof.
  split; [apply dual_limit_iff | ].
  split; [rewrite dual_limit_iff; unfold Spec.is_limit_exceeded;
          symmetry; apply Z.leb_le | ].
  repeat (split; [reflexivity | ]).
  split.
  - rewrite (single_limit_iff r Hr), (single_analogOutput_eq r Hr).
    symmetry. apply (scaled_threshold r Hr).
  - split; [apply dual_limit_iff | ].
    split; [exact single_round_limit | exact dual_round_limit].
Qed.

Lemma limit_indicator_threshold_witness :
  0 <= 819 <= 1023
  /\ (Dual.limit_level 204 = HIGH <-> 204 <= 204)
  /\ (Single.limit_level (Single.knock_percentage 819) = HIGH <->
      204 <= Single.analogOutput 819).
Proof.
  split; [lia | ].
  pose proof (limit_indicator_threshold 204 819 ltac:(lia)) as H.
  split; [apply H | apply H].
Defined.

End Conditioner.

(** ** The knock percentage *)

Section KnockPercentage.

(** C5. On every ADC code both sketches compute the percentage as the
    single-precision value of [r / 1023 * 100]; that value is within the
    rounding of the two operations of the exact quotient, lies between 0
    and 100, is 0 only at code 0 and 100 only at code 1023, and does not
    decrease when the code grows. *)
Theorem knock_percentage_scale (r r' : Z)
  (Hr : 0 <= r) (Hrr : r <= r') (Hr' : r' <= 1023) :
  Single.knock_percentage r = Spec.raw_to_percentage r
  /\ Dual.knock_percentage r = Spec.raw_to_percentage r
  /\ (exists q : Q,
         F32.to_Q (Single.knock_percentage r) = Some q
         /\ (Qabs (q - Spec.exact_percentage r)
             <= Spec.exact_percentage r * (1 # 8388608))%Q)
  /\ F32.leb (F32.of_Z 0) (Single.knock_percentage r) = true
  /\ F32.leb (Single.knock_percentage r) (F32.of_Z 100) = true
  /\ (SFeqb (Single.knock_percentage r) (F32.of_Z 0) = true <-> r = 0)
  /\ (SFeqb (Single.knock_percentage r) (F32.of_Z 100) = true <-> r = 1023)
  /\ F32.leb (Single.knock_percentage r) (Single.knock_percentage r') = true.
Proof.
  assert (R : 0 <= r <= 1023) by lia.
  split; [reflexivity | split; [reflexivity | ]].
  split; [exact (percentage_near_exact r R) | ].
  split; [exact (proj1 (percentage_range r R)) | ].
  split; [exact (proj2 (percentage_range r R)) | ].
  split; [exact (percentage_zero_iff r R) | ].
  split; [exact (percentage_full_iff r R) | ].
  apply percentage_mono; assumption.
Qed.

Lemma knock_percentage_scale_witness :
  0 <= 512 /\ 512 <= 513 /\ 513 <= 1023
  /\ F32.leb (Single.knock_percentage 512) (Single.knock_percentage 513) = true.
Proof.
  split; [lia | split; [lia | split; [lia | ]]].
  apply (knock_percentage_scale 512 513); lia.
Defined.

(** Code 818 in the single-channel sketch: the limit LED is driven low and
    the analog output is 203; the LED is first driven high at code 819. *)
Lemma single_limit_low_at_818 :
  Obs.writes_to LED_LIMIT (trace Single.loop_body (Bench.steady 818 false) Single.init) = [LOW]
  /\ Obs.duties ANALOG_OUTPUT_PIN (trace Single.loop_body (Bench.steady 818 false) Single.init)
     = [203]
  /\ Obs.writes_to LED_LIMIT (trace Single.loop_body (Bench.steady 819 false) Single.init) = [HIGH].
Proof. vm_compute. repeat split; reflexivity. Qed.

(** C6, as the sketch has it. In the single-channel sketch code 818 gives a
    percentage of 10480635/131072 (79.96, just under 80), an analog output
    of 203 and the limit LED low; code 819 gives a percentage of
    10493448/131072 (80.06, just over 80), an analog output of 204 and the
    limit LED high; on every ADC code the limit LED is driven high exactly
    from code 819 on. *)
Theorem single_limit_boundary (r : Z) (Hr : 0 <= r <= 1023) :
  F32.to_Q (Single.knock_percentage 818) = Some (10480635 # 131072)%Q
  /\ ((799 # 10) < (10480635 # 131072) < (80 # 1))%Q
  /\ Single.analogOutput 818 = 203
  /\ Single.limit_level (Single.knock_percentage 818) = LOW
  /\ Single.analogOutput 819 = 204
  /\ Single.limit_level (Single.knock_percentage 819) = HIGH
  /\ F32.to_Q (Single.knock_percentage 819) = Some (10493448 # 131072)%Q
  /\ ((80 # 1) < (10493448 # 131072) < (801 # 10))%Q
  /\ ((7996 # 100) <= (10480635 # 131072) < (7997 # 100))%Q
  /\ ((8005 # 100) < (10493448 # 131072) <= (8006 # 100))%Q
  /\ (Single.limit_level (Single.knock_percentage r) = HIGH <-> 819 <= r)
  /\ (forall (e : env) (s : Single.globals * cursor),
         Obs.writes_to LED_LIMIT (trace Single.loop_body e s) =
         [Single.limit_level
            (Single.knock_percentage (to_uint16 (adc_in e (adc_k (snd s)))))]
         /\ Obs.duties ANALOG_OUTPUT_PIN (trace Single.loop_body e s) =
            [Single.analogOutput (to_uint16 (adc_in e (adc_k (snd s))))]).
Proof.
  split; [vm_compute; reflexivity | ].
  split; [split; reflexivity | ].
  split; [vm_compute; reflexivity | ].
  split; [vm_compute; reflexivity | ].
  split; [vm_compute; reflexivity | ].
  split; [vm_compute; reflexivity | ].
  split; [vm_compute; reflexivity | ].
  split; [split; reflexivity | ].
  split; [split; [discriminate | reflexivity] | ].
  split; [split; [reflexivity | discriminate] | ].
  split; [exact (single_limit_iff r Hr) | ].
  intros e s. split; [apply single_round_limit | apply single_round_duty].
Qed.

Lemma single_limit_boundary_witness :
  0 <= 819 <= 1023
  /\ (Single.limit_level (Single.knock_percentage 819) = HIGH <-> 819 <= 819).
Proof.
  split; [lia | ].
  pose proof (single_limit_boundary 819 ltac:(lia)) as H.
  apply H.
Defined.

End KnockPercentage.

(** ** Start-up configuration of the SPU *)

Section Configuration.

Lemma dual_setup_bytes (e : env) (s : Dual.globals * cursor) :
  Obs.spi_bytes (trace Dual.setup e s) =
  [SPU_SET_PRESCALAR_6MHz; SPU_SET_BAND_PASS_FREQUENCY;
   SPU_SET_PROGRAMMABLE_GAIN; SPU_SET_INTEGRATOR_TIME].
Proof.
  destruct s as [[b] [i j k]], e as [rx adc sd]. unfold trace.
  run_round. destruct (sd k); reflexivity.
Qed.

Lemma single_setup_bytes (e : env) (s : Single.globals * cursor) :
  Obs.spi_bytes (trace Single.setup e s) =
  [SPU_SET_PRESCALAR_6MHz; SPU_SET_CHANNEL_1; SPU_SET_BAND_PASS_FREQUENCY;
   SPU_SET_PROGRAMMABLE_GAIN; SPU_SET_INTEGRATOR_TIME].
Proof. destruct s as [[] [i j k]], e as [rx adc sd]. reflexivity. Qed.

(** The single-channel start-up does not send just the four configuration
    bytes: it sends the channel-1 select byte after the prescaler. *)
Lemma single_setup_not_four_bytes :
  Obs.spi_bytes (trace Single.setup (Bench.steady 0 false) Single.init) <>
  [SPU_SET_PRESCALAR_6MHz; SPU_SET_BAND_PASS_FREQUENCY;
   SPU_SET_PROGRAMMABLE_GAIN; SPU_SET_INTEGRATOR_TIME].
Proof. vm_compute. discriminate. Qed.

(** C7, as the sketches have it. At start-up the dual-channel sketch sends
    over SPI exactly the prescaler, band-pass-frequency, gain and
    integrator-time bytes, in this order; the single-channel sketch sends
    the same four in the same order with the channel-1 select byte between
    the prescaler and the band-pass frequency. *)
Theorem setup_configuration_order :
  (forall (e : env) (s : Dual.globals * cursor),
      Obs.spi_bytes (trace Dual.setup e s) =
      [SPU_SET_PRESCALAR_6MHz; SPU_SET_BAND_PASS_FREQUENCY;
       SPU_SET_PROGRAMMABLE_GAIN; SPU_SET_INTEGRATOR_TIME])
  /\ (forall (e : env) (s : Single.globals * cursor),
         Obs.spi_bytes (trace Single.setup e s) =
         [SPU_SET_PRESCALAR_6MHz; SPU_SET_CHANNEL_1; SPU_SET_BAND_PASS_FREQUENCY;
          SPU_SET_PROGRAMMABLE_GAIN; SPU_SET_INTEGRATOR_TIME]).
Proof. split; [exact dual_setup_bytes | exact single_setup_bytes]. Qed.

End Configuration.

(** ** Chip-select framing of the SPI transfers *)

Section ChipSelect.

Lemma nss_after_app (d : level) (t1 t2 : list event) :
  Obs.nss_after d (t1 ++ t2) = Obs.nss_after (Obs.nss_after d t1) t2.
Proof. apply fold_left_app. Qed.

(** While the monitor accepts, its state tells the level of chip select. *)
Lemma bus_tracks_level (t : list event) :
  forall (b b' : Obs.bus),
    Obs.bus_run b t = Some b' ->
    Obs.nss_after (Obs.bus_level b) t = Obs.bus_level b'.
Proof.
  induction t as [ | ev t IH]; intros b b' H; simpl in H.
  - injection H as <-. reflexivity.
  - destruct (Obs.bus_step b ev) as [b1 | ] eqn:Hstep; [ | discriminate].
    change (Obs.nss_after (Obs.bus_level b) (ev :: t))
      with (Obs.nss_after (Obs.nss_after (Obs.bus_level b) [ev]) t).
    rewrite <- (IH b1 b' H). f_equal.
    destruct b, ev; simpl in Hstep; try discriminate;
      try (injection Hstep as <-; reflexivity);
      unfold Obs.nss_after; simpl;
      destruct (pin =? SPU_NSS_PIN); try discriminate;
      destruct v; try discriminate;
      injection Hstep as <-; reflexivity.
Qed.

Lemma single_COM_SPI_trace (tx : Z) (e : env) (s : Single.globals * cursor) :
  trace (Single.COM_SPI tx) e s =
  [DigitalWrite SPU_NSS_PIN LOW;
   SPITransfer tx (to_uint8 (spi_rx e (spi_k (snd s))));
   DigitalWrite SPU_NSS_PIN HIGH;
   SerialPrint "SPU_SPI: 0x";
   SerialPrintHex (to_uint8 (spi_rx e (spi_k (snd s))));
   SerialPrint nl_cr].
Proof. destruct s as [[] [i j k]], e as [rx adc sd]. reflexivity. Qed.

Lemma dual_COM_SPI_trace (tx : Z) (e : env) (s : Dual.globals * cursor) :
  trace (Dual.COM_SPI tx) e s =
  [SPISetDataMode SPI_MODE1;
   SPISetClockDivider SPI_CLOCK_DIV16;
   DigitalWrite SPU_NSS_PIN LOW;
   SPITransfer tx (to_uint8 (spi_rx e (spi_k (snd s))));
   DigitalWrite SPU_NSS_PIN HIGH].
Proof. destruct s as [[b] [i j k]], e as [rx adc sd]. reflexivity. Qed.

Lemma single_setup_bus (e : env) (s : Single.globals * cursor) :
  Obs.bus_run Obs.Released (trace Single.setup e s) = Some Obs.Released.
Proof. destruct s as [[] [i j k]], e as [rx adc sd]. reflexivity. Qed.

Lemma dual_setup_bus (e : env) (s : Dual.globals * cursor) :
  Obs.bus_run Obs.Released (trace Dual.setup e s) = Some Obs.Released.
Proof.
  destruct s as [[b] [i j k]], e as [rx adc sd]. unfold trace.
  run_round. destruct (sd k); reflexivity.
Qed.

Lemma single_setup_level (d : level) (e : env) (s : Single.globals * cursor) :
  Obs.nss_after d (trace Single.setup e s) = HIGH.
Proof. destruct s as [[] [i j k]], e as [rx adc sd]. reflexivity. Qed.

Lemma dual_setup_level (d : level) (e : env) (s : Dual.globals * cursor) :
  Obs.nss_after d (trace Dual.setup e s) = HIGH.
Proof.
  destruct s as [[b] [i j k]], e as [rx adc sd]. unfold trace.
  run_round. destruct (sd k); reflexivity.
Qed.

Lemma single_loop_body_bus (e : env) (s : Single.globals * cursor) :
  Obs.bus_run Obs.Released (trace Single.loop_body e s) = Some Obs.Released.
Proof. destruct s as [[] [i j k]], e as [rx adc sd]. reflexivity. Qed.

Lemma dual_loop_body_bus (e : env) (s : Dual.globals * cursor) :
  Obs.bus_run Obs.Released (trace Dual.loop_body e s) = Some Obs.Released.
Proof.
  destruct s as [[b] [i j k]], e as [rx adc sd]. unfold trace.
  destruct b; run_round; [destruct (sd k) | ]; reflexivity.
Qed.

Lemma forever_bus {G : Type} (body : M G unit) (e : env)
  (Hbody : forall s, Obs.bus_run Obs.Released (trace body e s) = Some Obs.Released)
  (n : nat) :
  forall s, Obs.bus_run Obs.Released (trace (forever body n) e s) = Some Obs.Released.
Proof.
  induction n as [ | n IH]; intros s.
  - reflexivity.
  - rewrite trace_forever_S, bus_run_app, Hbody. apply IH.
Qed.

Lemma single_sketch_bus (n : nat) (e : env) :
  Obs.bus_run Obs.Released (trace (Single.sketch n) e Single.init) = Some Obs.Released.
Proof.
  unfold Single.sketch. rewrite trace_bind, bus_run_app, single_setup_bus.
  apply forever_bus. intros s. apply single_loop_body_bus.
Qed.

Lemma dual_sketch_bus (n : nat) (e : env) :
  Obs.bus_run Obs.Released (trace (Dual.sketch n) e Dual.init) = Some Obs.Released.
Proof.
  unfold Dual.sketch. rewrite trace_bind, bus_run_app, dual_setup_bus.
  apply forever_bus. intros s. apply dual_loop_body_bus.
Qed.

Lemma single_sketch_level (n : nat) (d : level) (e : env) :
  Obs.nss_after d (trace (Single.sketch n) e Single.init) = HIGH.
Proof.
  unfold Single.sketch. rewrite trace_bind, nss_after_app, single_setup_level.
  apply (bus_tracks_level _ Obs.Released Obs.Released).
  apply forever_bus. intros s. apply single_loop_body_bus.
Qed.

Lemma dual_sketch_level (n : nat) (d : level) (e : env) :
  Obs.nss_after d (trace (Dual.sketch n) e Dual.init) = HIGH.
Proof.
  unfold Dual.sketch. rewrite trace_bind, nss_after_app, dual_setup_level.
  apply (bus_tracks_level _ Obs.Released Obs.Released).
  apply forever_bus. intros s. apply dual_loop_body_bus.
Qed.

(** C9. In both sketches every call of [COM_SPI] drives chip select low,
    exchanges the byte and drives chip select high again before it returns,
    whatever the byte, the response and the state.  Over start-up and any
    number of rounds chip select goes low only immediately before a byte
    exchange and goes high immediately after it, no exchange happens
    without it, and the line is high when the run stops, whatever its level
    at power-up. *)
Theorem chip_select_framing :
  (forall (tx : Z) (e : env) (s : Single.globals * cursor),
      trace (Single.COM_SPI tx) e s =
      [DigitalWrite SPU_NSS_PIN LOW;
       SPITransfer tx (to_uint8 (spi_rx e (spi_k (snd s))));
       DigitalWrite SPU_NSS_PIN HIGH;
       SerialPrint "SPU_SPI: 0x";
       SerialPrintHex (to_uint8 (spi_rx e (spi_k (snd s))));
       SerialPrint nl_cr])
  /\ (forall (tx : Z) (e : env) (s : Dual.globals * cursor),
         trace (Dual.COM_SPI tx) e s =
         [SPISetDataMode SPI_MODE1;
          SPISetClockDivider SPI_CLOCK_DIV16;
          DigitalWrite SPU_NSS_PIN LOW;
          SPITransfer tx (to_uint8 (spi_rx e (spi_k (snd s))));
          DigitalWrite SPU_NSS_PIN HIGH])
  /\ (forall (n : nat) (e : env),
         Obs.bus_run Obs.Released (trace (Single.sketch n) e Single.init)
         = Some Obs.Released)
  /\ (forall (n : nat) (e : env),
         Obs.bus_run Obs.Released (trace (Dual.sketch n) e Dual.init)
         = Some Obs.Released)
  /\ (forall (n : nat) (d : level) (e : env),
         Obs.nss_after d (trace (Single.sketch n) e Single.init) = HIGH)
  /\ (forall (n : nat) (d : level) (e : env),
         Obs.nss_after d (trace (Dual.sketch n) e Dual.init) = HIGH).
Proof.
  split; [exact single_COM_SPI_trace | ].
  split; [exact dual_COM_SPI_trace | ].
  split; [exact single_sketch_bus | ].
  split; [exact dual_sketch_bus | ].
  split; [exact single_sketch_level | exact dual_sketch_level].
Qed.

End ChipSelect.

(** ** Data logging *)

Section Logging.

Lemma dual_setup_flag (e : env) (c : cursor) :
  Dual.logEnabled (fst (state_after Dual.setup e (Dual.Globals false, c))) =
  sd_present e (sd_k c).
Proof.
  destruct c as [i j k], e as [rx adc sd]. unfold state_after.
  run_round. destruct (sd k); reflexivity.
Qed.

Lemma dual_setup_probe (e : env) (s : Dual.globals * cursor) :
  filter Obs.is_sd_event (trace Dual.setup e s) =
  [SDBegin SDCARD_CS_PIN (sd_present e (sd_k (snd s)))].
Proof.
  destruct s as [[b] [i j k]], e as [rx adc sd]. unfold trace.
  run_round. destruct (sd k); reflexivity.
Qed.

Lemma dual_loop_flag (n : nat) (e : env) :
  forall s : Dual.globals * cursor, fst (state_after (Dual.loop n) e s) = fst s.
Proof.
  unfold Dual.loop. induction n as [ | n IH]; intros s.
  - reflexivity.
  - rewrite state_after_forever_S, IH, dual_loop_body_state. reflexivity.
Qed.

Lemma dual_sketch_flag (n : nat) (e : env) :
  Dual.logEnabled (fst (state_after (Dual.sketch n) e Dual.init)) = sd_present e 0%nat.
Proof.
  unfold Dual.sketch. rewrite state_after_bind, dual_loop_flag.
  apply (dual_setup_flag e cursor0).
Qed.

Lemma logData_trace (logString : text) (e : env) (s : Dual.globals * cursor) :
  trace (Dual.logData logString) e s =
  SDBegin SDCARD_CS_PIN (sd_present e (sd_k (snd s)))
  :: (if sd_present e (sd_k (snd s))
      then [SDOpen "log.txt" FILE_WRITE; FilePrintln logString; FileClose]
      else [SerialPrintln "Error accessing SD-card."]).
Proof.
  destruct s as [[b] [i j k]], e as [rx adc sd]. unfold trace.
  run_round. destruct (sd k); reflexivity.
Qed.

Lemma logData_flag (logString : text) (e : env) (s : Dual.globals * cursor) :
  fst (state_after (Dual.logData logString) e s) = fst s.
Proof.
  destruct s as [[b] [i j k]], e as [rx adc sd]. unfold state_after.
  run_round. destruct (sd k); reflexivity.
Qed.

Lemma dual_round_logging (e : env) (s : Dual.globals * cursor) :
  trace Dual.loop_body e s =
  Obs.dual_round_head e (spi_k (snd s)) (adc_k (snd s))
  ++ (if Dual.logEnabled (fst s)
      then trace (Dual.logData (Obs.dual_line e (adc_k (snd s)))) e
                 (fst s, Cursor (2 + spi_k (snd s)) (2 + adc_k (snd s)) (sd_k (snd s)))
      else [])
  ++ [Delay 100; DigitalWrite LED_STATUS LOW; Delay 400].
Proof.
  destruct s as [[b] [i j k]], e as [rx adc sd].
  destruct b; cbn [Dual.logEnabled fst]; [rewrite logData_trace | ]; unfold trace;
    [destruct (sd k) eqn:Hsd | ]; run_round; try rewrite Hsd; reflexivity.
Qed.

Lemma dual_round_head_quiet (e : env) (i j : nat) :
  filter Obs.is_sd_event (Obs.dual_round_head e i j) = []
  /\ ~ In (SerialPrintln "Error accessing SD-card.") (Obs.dual_round_head e i j).
Proof.
  split; [reflexivity | ].
  simpl. intros H. repeat (destruct H as [H | H]; [discriminate H | ]). exact H.
Qed.

Lemma dual_round_status (e : env) (s : Dual.globals * cursor) :
  Obs.writes_to LED_STATUS (trace Dual.loop_body e s) = [HIGH; LOW].
Proof.
  destruct s as [[b] [i j k]], e as [rx adc sd]. unfold trace.
  destruct b; run_round; [destruct (sd k) | ]; reflexivity.
Qed.

Lemma dual_loop_status (n : nat) (e : env) :
  forall s : Dual.globals * cursor,
    Obs.writes_to LED_STATUS (trace (Dual.loop n) e s) = Obs.heartbeat n.
Proof.
  unfold Dual.loop. induction n as [ | n IH]; intros s.
  - reflexivity.
  - rewrite trace_forever_S, writes_to_app, dual_round_status, IH. reflexivity.
Qed.

(** C8. The flag [logEnabled] is set by the one probe of the card that
    start-up makes, and neither a round nor the logger changes it, so for
    any number of rounds it still holds the answer of that probe.  A round
    calls [logData] once, just before its closing delays, when the flag is
    set, and makes no call of the SD library otherwise.  [logData] probes
    the card once; when the probe fails it only prints the error message:
    it opens no file, does not probe again and leaves the flag as it is.
    Whatever the card answers, [n] rounds of the loop all run to their end. *)
Theorem logging_decided_at_startup :
  (forall (e : env) (c : cursor),
      Dual.logEnabled (fst (state_after Dual.setup e (Dual.Globals false, c))) =
      sd_present e (sd_k c))
  /\ (forall (e : env) (s : Dual.globals * cursor),
         filter Obs.is_sd_event (trace Dual.setup e s) =
         [SDBegin SDCARD_CS_PIN (sd_present e (sd_k (snd s)))])
  /\ (forall (n : nat) (e : env) (s : Dual.globals * cursor),
         fst (state_after (Dual.loop n) e s) = fst s)
  /\ (forall (n : nat) (e : env),
         Dual.logEnabled (fst (state_after (Dual.sketch n) e Dual.init)) =
         sd_present e 0%nat)
  /\ (forall (e : env) (s : Dual.globals * cursor),
         trace Dual.loop_body e s =
         Obs.dual_round_head e (spi_k (snd s)) (adc_k (snd s))
         ++ (if Dual.logEnabled (fst s)
             then trace (Dual.logData (Obs.dual_line e (adc_k (snd s)))) e
                        (fst s, Cursor (2 + spi_k (snd s)) (2 + adc_k (snd s))
                                       (sd_k (snd s)))
             else [])
         ++ [Delay 100; DigitalWrite LED_STATUS LOW; Delay 400])
  /\ (forall (e : env) (i j : nat),
         filter Obs.is_sd_event (Obs.dual_round_head e i j) = []
         /\ ~ In (SerialPrintln "Error accessing SD-card.") (Obs.dual_round_head e i j))
  /\ (forall (logString : text) (e : env) (s : Dual.globals * cursor),
         trace (Dual.logData logString) e s =
         SDBegin SDCARD_CS_PIN (sd_present e (sd_k (snd s)))
         :: (if sd_present e (sd_k (snd s))
             then [SDOpen "log.txt" FILE_WRITE; FilePrintln logString; FileClose]
             else [SerialPrintln "Error accessing SD-card."]))
  /\ (forall (logString : text) (e : env) (s : Dual.globals * cursor),
         fst (state_after (Dual.logData logString) e s) = fst s)
  /\ (forall (n : nat) (e : env) (s : Dual.globals * cursor),
         Obs.writes_to LED_STATUS (trace (Dual.loop n) e s) = Obs.heartbeat n).
Proof.
  split; [exact dual_setup_flag | ].
  split; [exact dual_setup_probe | ].
  split; [intros n e s; apply dual_loop_flag | ].
  split; [exact dual_sketch_flag | ].
  split; [exact dual_round_logging | ].
  split; [exact dual_round_head_quiet | ].
  split; [exact logData_trace | ].
  split; [exact logData_flag | ].
  intros n e s. apply dual_loop_status.
Qed.

End Logging.

(** * Further properties of the two sketches *)

(** ** Monitors and sums over sequenced commands *)

Section Monitors.
Context {Q : Type} (step : Q -> event -> option Q).

Lemma run_app (q : Q) (t1 t2 : list event) :
  Watch.run step q (t1 ++ t2) =
  match Watch.run step q t1 with
  | Some q' => Watch.run step q' t2
  | None => None
  end.
Proof.
  revert q. induction t1 as [ | ev t1 IH]; intros q; simpl.
  - reflexivity.
  - destruct (step q ev) as [q' | ]; [apply IH | reflexivity].
Qed.

(** A set of monitor states that every round stays in is kept by any
    number of rounds. *)
Lemma run_forever {G : Type} (body : M G unit) (e : env) (I : Q -> Prop)
  (Hbody : forall s q, I q ->
                       exists q', Watch.run step q (trace body e s) = Some q' /\ I q')
  (n : nat) :
  forall s q, I q ->
              exists q', Watch.run step q (trace (forever body n) e s) = Some q' /\ I q'.
Proof.
  induction n as [ | n IH]; intros s q Hq.
  - exists q. split; [reflexivity | exact Hq].
  - rewrite trace_forever_S, run_app.
    destruct (Hbody s q Hq) as [q1 [-> Hq1]]. apply IH, Hq1.
Qed.

End Monitors.

Section Sums.

Lemma ms_delayed_app (t1 t2 : list event) :
  Watch.ms_delayed (t1 ++ t2) = Watch.ms_delayed t1 + Watch.ms_delayed t2.
Proof.
  induction t1 as [ | ev t1 IH]; simpl.
  - reflexivity.
  - destruct ev; rewrite ?IH; try reflexivity. lia.
Qed.

Lemma us_delayed_app (t1 t2 : list event) :
  Watch.us_delayed (t1 ++ t2) = Watch.us_delayed t1 + Watch.us_delayed t2.
Proof.
  induction t1 as [ | ev t1 IH]; simpl.
  - reflexivity.
  - destruct ev; rewrite ?IH; try reflexivity. lia.
Qed.

Lemma spi_bytes_app (t1 t2 : list event) :
  Obs.spi_bytes (t1 ++ t2) = Obs.spi_bytes t1 ++ Obs.spi_bytes t2.
Proof. apply flat_map_app. Qed.

Lemma duties_app (pin : Z) (t1 t2 : list event) :
  Obs.duties pin (t1 ++ t2) = Obs.duties pin t1 ++ Obs.duties pin t2.
Proof. apply flat_map_app. Qed.

End Sums.

(** ** SPI traffic over a whole run *)

Section Traffic.

Lemma single_round_bytes (e : env) (s : Single.globals * cursor) :
  Obs.spi_bytes (trace Single.loop_body e s) = [].
Proof. destruct s as [[] [i j k]], e as [rx adc sd]. reflexivity. Qed.

Lemma dual_round_bytes (e : env) (s : Dual.globals * cursor) :
  Obs.spi_bytes (trace Dual.loop_body e s) = [SPU_SET_CHANNEL_1; SPU_SET_CHANNEL_2].
Proof.
  destruct s as [[b] [i j k]], e as [rx adc sd]. unfold trace.
  destruct b; run_round; [destruct (sd k) | ]; reflexivity.
Qed.

Lemma single_loop_bytes (n : nat) (e : env) :
  forall s, Obs.spi_bytes (trace (Single.loop n) e s) = [].
Proof.
  unfold Single.loop. induction n as [ | n IH]; intros s.
  - reflexivity.
  - rewrite trace_forever_S, spi_bytes_app, single_round_bytes, IH. reflexivity.
Qed.

Lemma dual_loop_bytes (n : nat) (e : env) :
  forall s, Obs.spi_bytes (trace (Dual.loop n) e s) = Watch.channel_selects n.
Proof.
  unfold Dual.loop. induction n as [ | n IH]; intros s.
  - reflexivity.
  - rewrite trace_forever_S, spi_bytes_app, dual_round_bytes, IH. reflexivity.
Qed.

Lemma single_loop_state (n : nat) (e : env) :
  forall s, state_after (Single.loop n) e s =
            (fst s, Cursor (spi_k (snd s)) (n + adc_k (snd s)) (sd_k (snd s))).
Proof.
  unfold Single.loop. induction n as [ | n IH]; intros s.
  - destruct s as [g [i j k]]. reflexivity.
  - rewrite state_after_forever_S, IH, single_loop_body_state.
    cbn [fst snd spi_k adc_k sd_k]. f_equal. f_equal. lia.
Qed.

(** X1. Whatever the hardware answers and however many rounds run, the
    single-channel sketch sends over SPI the five start-up bytes and nothing
    else: its rounds make no transfer, so the channel selected at start-up
    stays selected, and after [n] rounds it has made [n] conversions. *)
Theorem single_spi_only_at_startup (n : nat) (e : env) :
  Obs.spi_bytes (trace (Single.sketch n) e Single.init) =
    [SPU_SET_PRESCALAR_6MHz; SPU_SET_CHANNEL_1; SPU_SET_BAND_PASS_FREQUENCY;
     SPU_SET_PROGRAMMABLE_GAIN; SPU_SET_INTEGRATOR_TIME]
  /\ (forall s, Obs.spi_bytes (trace (Single.loop n) e s) = [])
  /\ snd (state_after (Single.sketch n) e Single.init) = Cursor 5 n 0.
Proof.
  split; [ | split].
  - unfold Single.sketch.
    rewrite trace_bind, spi_bytes_app, single_setup_bytes, single_loop_bytes.
    reflexivity.
  - apply single_loop_bytes.
  - unfold Single.sketch. rewrite state_after_bind, single_loop_state.
    destruct e as [rx adc sd]. cbn. f_equal. lia.
Qed.

(** X2. Whatever the hardware answers, the bytes the dual-channel sketch
    sends over SPI in a run of [n] rounds are the four configuration bytes
    followed by [n] times the channel-1 select and the channel-2 select. *)
Theorem dual_spi_traffic (n : nat) (e : env) :
  Obs.spi_bytes (trace (Dual.sketch n) e Dual.init) =
  [SPU_SET_PRESCALAR_6MHz; SPU_SET_BAND_PASS_FREQUENCY;
   SPU_SET_PROGRAMMABLE_GAIN; SPU_SET_INTEGRATOR_TIME]
  ++ Watch.channel_selects n.
Proof.
  unfold Dual.sketch.
  rewrite trace_bind, spi_bytes_app, dual_setup_bytes, dual_loop_bytes.
  reflexivity.
Qed.

End Traffic.

(** ** Measurement windows over a whole run *)

Section Windows.

Lemma single_round_window (e : env) (s : Single.globals * cursor) :
  filter Obs.is_window_event (trace Single.loop_body e s) =
  Watch.single_windows e (adc_k (snd s)) 1.
Proof. destruct s as [[] [i j k]], e as [rx adc sd]. reflexivity. Qed.

(** X3. In [n] rounds of the single-channel sketch the protocol events are
    [n] windows, each of them hold pin high, a 3000 microsecond wait, hold
    pin low and then one conversion on the analog input, the conversions
    being consecutive; no round makes an SPI transfer. *)
Theorem single_measurement_order (n : nat) (e : env) :
  forall s : Single.globals * cursor,
    filter Obs.is_window_event (trace (Single.loop n) e s) =
    Watch.single_windows e (adc_k (snd s)) n.
Proof.
  unfold Single.loop. induction n as [ | n IH]; intros s.
  - reflexivity.
  - rewrite trace_forever_S, filter_app, single_round_window, IH.
    rewrite single_loop_body_state. reflexivity.
Qed.

Lemma single_setup_hold (e : env) (s : Single.globals * cursor) :
  Watch.run Watch.hold_step Watch.Idle (trace Single.setup e s) = Some Watch.Idle.
Proof. destruct s as [[] [i j k]], e as [rx adc sd]. reflexivity. Qed.

Lemma dual_setup_hold (e : env) (s : Dual.globals * cursor) :
  Watch.run Watch.hold_step Watch.Idle (trace Dual.setup e s) = Some Watch.Idle.
Proof.
  destruct s as [[b] [i j k]], e as [rx adc sd]. unfold trace.
  run_round. destruct (sd k); reflexivity.
Qed.

Lemma single_round_hold (e : env) (s : Single.globals * cursor) :
  Watch.run Watch.hold_step Watch.Idle (trace Single.loop_body e s) = Some Watch.Idle.
Proof. destruct s as [[] [i j k]], e as [rx adc sd]. reflexivity. Qed.

Lemma dual_round_hold (e : env) (s : Dual.globals * cursor) :
  Watch.run Watch.hold_step Watch.Idle (trace Dual.loop_body e s) = Some Watch.Idle.
Proof.
  destruct s as [[b] [i j k]], e as [rx adc sd]. unfold trace.
  destruct b; run_round; [destruct (sd k) | ]; reflexivity.
Qed.

(** X4. Over start-up and any number of rounds of either sketch, the hold
    pin goes high only to be followed at once by one wait of the window
    time and then by hold low; no other call is made while it is high;
    every conversion reads the analog input after a window has ended and
    before the next one starts, and every window is read once. *)
Theorem window_discipline (n : nat) (e : env) :
  Watch.run Watch.hold_step Watch.Idle (trace (Single.sketch n) e Single.init)
  = Some Watch.Idle
  /\ Watch.run Watch.hold_step Watch.Idle (trace (Dual.sketch n) e Dual.init)
     = Some Watch.Idle.
Proof.
  split.
  - unfold Single.sketch, Single.loop. rewrite trace_bind, run_app, single_setup_hold.
    destruct (run_forever Watch.hold_step Single.loop_body e (fun q => q = Watch.Idle))
      with (n := n) (s := state_after Single.setup e Single.init) (q := Watch.Idle)
      as [q [Hq ->]]; [ | reflexivity | exact Hq].
    intros s q ->. exists Watch.Idle. split; [apply single_round_hold | reflexivity].
  - unfold Dual.sketch, Dual.loop. rewrite trace_bind, run_app, dual_setup_hold.
    destruct (run_forever Watch.hold_step Dual.loop_body e (fun q => q = Watch.Idle))
      with (n := n) (s := state_after Dual.setup e Dual.init) (q := Watch.Idle)
      as [q [Hq ->]]; [ | reflexivity | exact Hq].
    intros s q ->. exists Watch.Idle. split; [apply dual_round_hold | reflexivity].
Qed.

End Windows.

(** ** Time spent waiting *)

Section Timing.

Lemma single_setup_delays (e : env) (s : Single.globals * cursor) :
  Watch.ms_delayed (trace Single.setup e s) = 400
  /\ Watch.us_delayed (trace Single.setup e s) = 0.
Proof. destruct s as [[] [i j k]], e as [rx adc sd]. split; reflexivity. Qed.

Lemma dual_setup_delays (e : env) (s : Dual.globals * cursor) :
  Watch.ms_delayed (trace Dual.setup e s) = 400
  /\ Watch.us_delayed (trace Dual.setup e s) = 0.
Proof.
  destruct s as [[b] [i j k]], e as [rx adc sd]. unfold trace.
  run_round. destruct (sd k); split; reflexivity.
Qed.

Lemma single_round_delays (e : env) (s : Single.globals * cursor) :
  Watch.ms_delayed (trace Single.loop_body e s) = 500
  /\ Watch.us_delayed (trace Single.loop_body e s) = 3000.
Proof. destruct s as [[] [i j k]], e as [rx adc sd]. split; reflexivity. Qed.

Lemma dual_round_delays (e : env) (s : Dual.globals * cursor) :
  Watch.ms_delayed (trace Dual.loop_body e s) = 500
  /\ Watch.us_delayed (trace Dual.loop_body e s) = 6000.
Proof.
  destruct s as [[b] [i j k]], e as [rx adc sd]. unfold trace.
  destruct b; run_round; [destruct (sd k) | ]; split; reflexivity.
Qed.

Lemma forever_delays {G : Type} (body : M G unit) (e : env) (ms us : Z)
  (Hbody : forall s, Watch.ms_delayed (trace body e s) = ms
                     /\ Watch.us_delayed (trace body e s) = us)
  (n : nat) :
  forall s, Watch.ms_delayed (trace (forever body n) e s) = ms * Z.of_nat n
            /\ Watch.us_delayed (trace (forever body n) e s) = us * Z.of_nat n.
Proof.
  induction n as [ | n IH]; intros s.
  - split; simpl; lia.
  - rewrite trace_forever_S, ms_delayed_app, us_delayed_app.
    destruct (Hbody s) as [-> ->].
    destruct (IH (state_after body e s)) as [-> ->]. lia.
Qed.

(** X5. Whatever the hardware answers, a run of [n] rounds spends in
    [delay] 400 ms at start-up and 500 ms per round in both sketches, and in
    [delayMicroseconds] 3000 microseconds per round in the single-channel
    sketch and 6000 in the dual-channel one; logging adds no wait. *)
Theorem waiting_time (n : nat) (e : env) :
  Watch.ms_delayed (trace (Single.sketch n) e Single.init) = 400 + 500 * Z.of_nat n
  /\ Watch.us_delayed (trace (Single.sketch n) e Single.init) = 3000 * Z.of_nat n
  /\ Watch.ms_delayed (trace (Dual.sketch n) e Dual.init) = 400 + 500 * Z.of_nat n
  /\ Watch.us_delayed (trace (Dual.sketch n) e Dual.init) = 6000 * Z.of_nat n.
Proof.
  unfold Single.sketch, Dual.sketch, Single.loop, Dual.loop.
  rewrite !trace_bind, !ms_delayed_app, !us_delayed_app.
  destruct (single_setup_delays e Single.init) as [-> ->].
  destruct (dual_setup_delays e Dual.init) as [-> ->].
  destruct (forever_delays Single.loop_body e 500 3000 (single_round_delays e) n
              (state_after Single.setup e Single.init)) as [-> ->].
  destruct (forever_delays Dual.loop_body e 500 6000 (dual_round_delays e) n
              (state_after Dual.setup e Dual.init)) as [-> ->].
  lia.
Qed.

End Timing.

(** ** Initialisation before use *)

Section Initialisation.

Lemma single_setup_ready (e : env) (s : Single.globals * cursor) :
  Watch.run Watch.ready_step Watch.ready0 (trace Single.setup e s) = Some Watch.single_ready.
Proof. destruct s as [[] [i j k]], e as [rx adc sd]. reflexivity. Qed.

Lemma dual_setup_ready (e : env) (s : Dual.globals * cursor) :
  Watch.run Watch.ready_step Watch.ready0 (trace Dual.setup e s) = Some Watch.dual_ready.
Proof.
  destruct s as [[b] [i j k]], e as [rx adc sd]. unfold trace.
  run_round. destruct (sd k); reflexivity.
Qed.

Lemma single_round_ready (e : env) (s : Single.globals * cursor) :
  Watch.run Watch.ready_step Watch.single_ready (trace Single.loop_body e s) = Some Watch.single_ready.
Proof. destruct s as [[] [i j k]], e as [rx adc sd]. reflexivity. Qed.

Lemma dual_round_ready (e : env) (s : Dual.globals * cursor) :
  Watch.run Watch.ready_step Watch.dual_ready (trace Dual.loop_body e s) = Some Watch.dual_ready.
Proof.
  destruct s as [[b] [i j k]], e as [rx adc sd]. unfold trace.
  destruct b; run_round; [destruct (sd k) | ]; reflexivity.
Qed.

(** X6. In a run of either sketch, of any length and whatever the hardware
    answers, nothing is printed before [Serial.begin], no SPI call is made
    before [SPI.begin], and [digitalWrite] is only ever applied to a pin
    that start-up has configured as an output; the rounds change none of
    this. *)
Theorem initialised_before_use (n : nat) (e : env) :
  Watch.run Watch.ready_step Watch.ready0 (trace (Single.sketch n) e Single.init)
  = Some Watch.single_ready
  /\ Watch.run Watch.ready_step Watch.ready0 (trace (Dual.sketch n) e Dual.init)
     = Some Watch.dual_ready.
Proof.
  split.
  - unfold Single.sketch, Single.loop. rewrite trace_bind, run_app, single_setup_ready.
    destruct (run_forever Watch.ready_step Single.loop_body e (fun q => q = Watch.single_ready))
      with (n := n) (s := state_after Single.setup e Single.init) (q := Watch.single_ready)
      as [q [Hq ->]]; [ | reflexivity | exact Hq].
    intros s q ->. exists Watch.single_ready. split; [apply single_round_ready | reflexivity].
  - unfold Dual.sketch, Dual.loop. rewrite trace_bind, run_app, dual_setup_ready.
    destruct (run_forever Watch.ready_step Dual.loop_body e (fun q => q = Watch.dual_ready))
      with (n := n) (s := state_after Dual.setup e Dual.init) (q := Watch.dual_ready)
      as [q [Hq ->]]; [ | reflexivity | exact Hq].
    intros s q ->. exists Watch.dual_ready. split; [apply dual_round_ready | reflexivity].
Qed.

End Initialisation.

(** ** SPI settings at each transfer *)

Section SpiSettings.

Lemma single_setup_settings (q : Watch.settings) (e : env) (s : Single.globals * cursor) :
  Watch.run Watch.settings_step q (trace Single.setup e s) = Some Watch.spu_settings.
Proof. destruct q as [m d], s as [[] [i j k]], e as [rx adc sd]. reflexivity. Qed.

Lemma single_round_settings (e : env) (s : Single.globals * cursor) :
  Watch.run Watch.settings_step Watch.spu_settings (trace Single.loop_body e s)
  = Some Watch.spu_settings.
Proof. destruct s as [[] [i j k]], e as [rx adc sd]. reflexivity. Qed.

Lemma dual_setup_settings (q : Watch.settings) (e : env) (s : Dual.globals * cursor) :
  Watch.run Watch.settings_step q (trace Dual.setup e s) = Some Watch.spu_settings.
Proof.
  destruct q as [m d], s as [[b] [i j k]], e as [rx adc sd]. unfold trace.
  run_round. destruct (sd k); reflexivity.
Qed.

Lemma dual_round_settings (q : Watch.settings) (e : env) (s : Dual.globals * cursor) :
  Watch.run Watch.settings_step q (trace Dual.loop_body e s) =
  Some (if Dual.logEnabled (fst s) then Watch.Settings None None else Watch.spu_settings).
Proof.
  destruct q as [m d], s as [[b] [i j k]], e as [rx adc sd]. unfold trace.
  destruct b; run_round; [destruct (sd k) | ]; reflexivity.
Qed.

(** X7. Even if [SPI.begin] and every call of the SD library leave an
    arbitrary data mode and clock divider behind, every transfer to the SPU
    in a run of either sketch is made in mode 1 with divider 16, whatever
    the settings at power-up: the single-channel sketch sets them once and
    never touches the bus again, the dual-channel sketch sets them anew
    inside every [COM_SPI]. *)
Theorem spu_transfers_in_mode1 (n : nat) (q0 : Watch.settings) (e : env) :
  Watch.run Watch.settings_step q0 (trace (Single.sketch n) e Single.init)
  = Some Watch.spu_settings
  /\ exists q, Watch.run Watch.settings_step q0 (trace (Dual.sketch n) e Dual.init)
               = Some q.
Proof.
  split.
  - unfold Single.sketch, Single.loop. rewrite trace_bind, run_app, single_setup_settings.
    destruct (run_forever Watch.settings_step Single.loop_body e (fun q => q = Watch.spu_settings))
      with (n := n) (s := state_after Single.setup e Single.init) (q := Watch.spu_settings)
      as [q [Hq ->]]; [ | reflexivity | exact Hq].
    intros s q ->. exists Watch.spu_settings. split; [apply single_round_settings | reflexivity].
  - unfold Dual.sketch, Dual.loop. rewrite trace_bind, run_app, dual_setup_settings.
    destruct (run_forever Watch.settings_step Dual.loop_body e (fun _ => True))
      with (n := n) (s := state_after Dual.setup e Dual.init) (q := Watch.spu_settings)
      as [q [Hq _]]; [ | exact I | exists q; exact Hq].
    intros s q _. eexists. split; [apply dual_round_settings | exact I].
Qed.

End SpiSettings.

(** ** What gets logged *)

Section LogLines.

Lemma logged_app (t1 t2 : list event) :
  Watch.logged (t1 ++ t2) = Watch.logged t1 ++ Watch.logged t2.
Proof. apply flat_map_app. Qed.

Lemma printed_lines_app (t1 t2 : list event) :
  Watch.printed_lines (t1 ++ t2) = Watch.printed_lines t1 ++ Watch.printed_lines t2.
Proof. apply flat_map_app. Qed.

Lemma printed_messages_app (t1 t2 : list event) :
  Watch.printed_messages (t1 ++ t2) =
  Watch.printed_messages t1 ++ Watch.printed_messages t2.
Proof. apply flat_map_app. Qed.

Lemma dual_setup_state (e : env) (c : cursor) :
  state_after Dual.setup e (Dual.Globals false, c) =
  (Dual.Globals (sd_present e (sd_k c)),
   Cursor (4 + spi_k c) (adc_k c) (S (sd_k c))).
Proof.
  destruct c as [i j k], e as [rx adc sd]. unfold state_after.
  run_round. destruct (sd k); reflexivity.
Qed.

Lemma dual_setup_at_init (e : env) :
  state_after Dual.setup e Dual.init =
  (Dual.Globals (sd_present e 0%nat), Cursor 4 0 1).
Proof. exact (dual_setup_state e cursor0). Qed.

Lemma dual_setup_output (e : env) (s : Dual.globals * cursor) :
  Watch.logged (trace Dual.setup e s) = []
  /\ Watch.printed_lines (trace Dual.setup e s) = []
  /\ Watch.printed_messages (trace Dual.setup e s) =
     (if sd_present e (sd_k (snd s)) then ["Data logging enabled."%string] else []).
Proof.
  destruct s as [[b] [i j k]], e as [rx adc sd]. unfold trace.
  run_round. destruct (sd k); repeat split; reflexivity.
Qed.

Lemma dual_round_output (e : env) (s : Dual.globals * cursor) :
  let line := Obs.dual_line e (adc_k (snd s)) in
  let card := sd_present e (sd_k (snd s)) in
  Watch.printed_lines (trace Dual.loop_body e s) = [line]
  /\ filter Obs.is_sd_event (trace Dual.loop_body e s) =
     (if Dual.logEnabled (fst s)
      then SDBegin SDCARD_CS_PIN card
           :: (if card then [SDOpen "log.txt" FILE_WRITE; FilePrintln line; FileClose]
               else [])
      else [])
  /\ Watch.logged (trace Dual.loop_body e s) =
     (if Dual.logEnabled (fst s) && card then [line] else [])
  /\ Watch.printed_messages (trace Dual.loop_body e s) =
     (if Dual.logEnabled (fst s) && negb card
      then ["Error accessing SD-card."%string] else []).
Proof.
  destruct s as [[b] [i j k]], e as [rx adc sd]. unfold trace.
  destruct b; run_round; [destruct (sd k) | ]; repeat split; reflexivity.
Qed.

(** X8. In a round of the dual-channel sketch the line printed on the
    serial port is the line assembled from the round's two conversions;
    the SD library is called only when [logEnabled] is set, and then the
    round probes the card once and, if the probe succeeds, opens log.txt for
    writing, appends that same line and closes the file, and if it fails
    appends nothing and prints the error message once. *)
Theorem dual_round_log (e : env) (s : Dual.globals * cursor) :
  let line := Obs.dual_line e (adc_k (snd s)) in
  let card := sd_present e (sd_k (snd s)) in
  Watch.printed_lines (trace Dual.loop_body e s) = [line]
  /\ filter Obs.is_sd_event (trace Dual.loop_body e s) =
     (if Dual.logEnabled (fst s)
      then SDBegin SDCARD_CS_PIN card
           :: (if card then [SDOpen "log.txt" FILE_WRITE; FilePrintln line; FileClose]
               else [])
      else [])
  /\ Watch.logged (trace Dual.loop_body e s) =
     (if Dual.logEnabled (fst s) && card then [line] else [])
  /\ Watch.printed_messages (trace Dual.loop_body e s) =
     (if Dual.logEnabled (fst s) && negb card
      then ["Error accessing SD-card."%string] else []).
Proof. exact (dual_round_output e s). Qed.

Lemma dual_loop_lines (n : nat) (e : env) :
  forall s : Dual.globals * cursor,
    Watch.printed_lines (trace (Dual.loop n) e s) =
    Watch.dual_lines e (adc_k (snd s)) n.
Proof.
  unfold Dual.loop. induction n as [ | n IH]; intros s.
  - reflexivity.
  - rewrite trace_forever_S, printed_lines_app, IH, dual_loop_body_state.
    destruct (dual_round_output e s) as [-> _]. reflexivity.
Qed.

Lemma dual_loop_logging_on (n : nat) (e : env) :
  forall s : Dual.globals * cursor,
    Dual.logEnabled (fst s) = true ->
    Watch.logged (trace (Dual.loop n) e s) =
      Watch.dual_logged e (adc_k (snd s)) (sd_k (snd s)) n
    /\ Watch.printed_messages (trace (Dual.loop n) e s) =
       Watch.dual_errors e (sd_k (snd s)) n.
Proof.
  unfold Dual.loop. induction n as [ | n IH]; intros s Hs.
  - split; reflexivity.
  - rewrite trace_forever_S, logged_app, printed_messages_app.
    destruct (dual_round_output e s) as [_ [_ [-> ->]]].
    destruct (IH (state_after Dual.loop_body e s)) as [-> ->].
    + rewrite dual_loop_body_state. exact Hs.
    + rewrite dual_loop_body_state, Hs.
      cbn [snd adc_k sd_k andb Watch.dual_logged Watch.dual_errors].
      split; [ | destruct (sd_present e (sd_k (snd s)))]; reflexivity.
Qed.

Lemma dual_loop_logging_off (n : nat) (e : env) :
  forall s : Dual.globals * cursor,
    Dual.logEnabled (fst s) = false ->
    filter Obs.is_sd_event (trace (Dual.loop n) e s) = []
    /\ Watch.logged (trace (Dual.loop n) e s) = []
    /\ Watch.printed_messages (trace (Dual.loop n) e s) = [].
Proof.
  unfold Dual.loop. induction n as [ | n IH]; intros s Hs.
  - repeat split; reflexivity.
  - rewrite trace_forever_S, filter_app, logged_app, printed_messages_app.
    destruct (dual_round_output e s) as [_ [-> [-> ->]]].
    destruct (IH (state_after Dual.loop_body e s)) as [-> [-> ->]].
    + rewrite dual_loop_body_state. exact Hs.
    + rewrite Hs. repeat split; reflexivity.
Qed.

Lemma dual_logged_all (e : env) (Hcard : forall k, sd_present e k = true) (n : nat) :
  forall j k, Watch.dual_logged e j k n = Watch.dual_lines e j n.
Proof.
  induction n as [ | n IH]; intros j k; simpl.
  - reflexivity.
  - rewrite Hcard, IH. reflexivity.
Qed.

(** X9. When the card is missing at start-up, a run of the dual-channel
    sketch probes it that one time and never again, however many rounds
    follow and even if the card is present later: no file is opened, no
    line is logged and neither the enabling message nor the error message
    is printed, while every round still prints its line. *)
Theorem no_card_at_startup (n : nat) (e : env) (Hcard : sd_present e 0%nat = false) :
  filter Obs.is_sd_event (trace (Dual.sketch n) e Dual.init) =
    [SDBegin SDCARD_CS_PIN false]
  /\ Watch.logged (trace (Dual.sketch n) e Dual.init) = []
  /\ Watch.printed_messages (trace (Dual.sketch n) e Dual.init) = []
  /\ Watch.printed_lines (trace (Dual.sketch n) e Dual.init) = Watch.dual_lines e 0 n.
Proof.
  unfold Dual.sketch.
  rewrite trace_bind, filter_app, logged_app, printed_messages_app, printed_lines_app.
  rewrite dual_setup_probe, dual_loop_lines.
  destruct (dual_setup_output e Dual.init) as [-> [-> ->]].
  rewrite dual_setup_at_init. unfold Dual.init. cbn [snd sd_k adc_k cursor0].
  rewrite ?Hcard.
  destruct (dual_loop_logging_off n e (Dual.Globals false, Cursor 4 0 1) eq_refl)
    as [-> [-> ->]].
  repeat split; reflexivity.
Qed.

Lemma no_card_at_startup_witness :
  sd_present Watch.late_card 0%nat = false
  /\ filter Obs.is_sd_event (trace (Dual.sketch 3) Watch.late_card Dual.init) =
     [SDBegin SDCARD_CS_PIN false].
Proof.
  split; [reflexivity | ].
  apply (no_card_at_startup 3 Watch.late_card). reflexivity.
Defined.

(** X10. When the card answers the probe at start-up, the enabling message
    is printed once and every round then attempts to log: round by round, a
    successful probe appends the round's line and a failed one prints the
    error message and appends nothing, and later rounds keep trying. *)
Theorem card_at_startup (n : nat) (e : env) (Hcard : sd_present e 0%nat = true) :
  Watch.logged (trace (Dual.sketch n) e Dual.init) = Watch.dual_logged e 0 1 n
  /\ Watch.printed_messages (trace (Dual.sketch n) e Dual.init) =
     "Data logging enabled."%string :: Watch.dual_errors e 1 n
  /\ Watch.printed_lines (trace (Dual.sketch n) e Dual.init) = Watch.dual_lines e 0 n.
Proof.
  unfold Dual.sketch.
  rewrite trace_bind, logged_app, printed_messages_app, printed_lines_app.
  rewrite dual_loop_lines.
  destruct (dual_setup_output e Dual.init) as [-> [-> ->]].
  rewrite dual_setup_at_init. unfold Dual.init. cbn [snd sd_k adc_k cursor0].
  rewrite ?Hcard.
  destruct (dual_loop_logging_on n e (Dual.Globals true, Cursor 4 0 1) eq_refl)
    as [-> ->].
  repeat split; reflexivity.
Qed.

Lemma card_at_startup_witness :
  sd_present (Bench.steady 700 true) 0%nat = true
  /\ Watch.logged (trace (Dual.sketch 2) (Bench.steady 700 true) Dual.init) =
     Watch.dual_logged (Bench.steady 700 true) 0 1 2.
Proof.
  split; [reflexivity | ].
  apply (card_at_startup 2 (Bench.steady 700 true)). reflexivity.
Defined.

(** X11. With a card that answers every probe, the lines appended to
    log.txt over a run of [n] rounds are exactly the [n] lines printed on
    the serial port, in the same order. *)
Theorem log_mirrors_serial (n : nat) (e : env) (Hcard : forall k, sd_present e k = true) :
  Watch.logged (trace (Dual.sketch n) e Dual.init) =
    Watch.printed_lines (trace (Dual.sketch n) e Dual.init)
  /\ List.length (Watch.logged (trace (Dual.sketch n) e Dual.init)) = n.
Proof.
  unfold Dual.sketch.
  rewrite trace_bind, logged_app, printed_lines_app, dual_loop_lines.
  destruct (dual_setup_output e Dual.init) as [-> [-> _]].
  rewrite dual_setup_at_init. unfold Dual.init. cbn [snd sd_k adc_k cursor0].
  rewrite ?Hcard.
  destruct (dual_loop_logging_on n e (Dual.Globals true, Cursor 4 0 1) eq_refl)
    as [-> _].
  cbn [snd sd_k adc_k app]. rewrite (dual_logged_all e Hcard).
  split; [reflexivity | ].
  generalize 0%nat. induction n as [ | n IH]; intros j; simpl.
  - reflexivity.
  - rewrite IH. reflexivity.
Qed.

Lemma log_mirrors_serial_witness :
  (forall k, sd_present (Bench.steady 700 true) k = true)
  /\ List.length (Watch.logged (trace (Dual.sketch 2) (Bench.steady 700 true) Dual.init)) = 2%nat.
Proof.
  split; [intros k; reflexivity | ].
  apply (log_mirrors_serial 2 (Bench.steady 700 true)). intros k. reflexivity.
Defined.

End LogLines.

(** ** Resolution and range of the analog output *)

Section Resolution.

(** X12. Between neighbouring ADC codes the analog output rises by at most
    one step and never falls; it is 0 exactly on the codes 0..4 and reaches
    the full 255 on code 1023 only. *)
Theorem analog_output_resolution (r : Z) (Hr : 0 <= r <= 1022) :
  0 <= Single.analogOutput (r + 1) - Single.analogOutput r <= 1
  /\ 0 <= Dual.analogOutput (r + 1) - Dual.analogOutput r <= 1
  /\ (Single.analogOutput r = 0 <-> r <= 4)
  /\ Single.analogOutput r < 255
  /\ Single.analogOutput 1023 = 255.
Proof.
  rewrite (single_analogOutput_eq r), (single_analogOutput_eq (r + 1)) by lia.
  rewrite (dual_analogOutput_eq r), (dual_analogOutput_eq (r + 1)) by lia.
  split; [ | split; [ | split; [ | split]]].
  - Z.div_mod_to_equations. lia.
  - Z.div_mod_to_equations. lia.
  - split; intros H; Z.div_mod_to_equations; lia.
  - Z.div_mod_to_equations. lia.
  - vm_compute. reflexivity.
Qed.

Lemma analog_output_resolution_witness :
  0 <= 4 <= 1022
  /\ 0 <= Single.analogOutput (4 + 1) - Single.analogOutput 4 <= 1.
Proof.
  split; [lia | ].
  apply (analog_output_resolution 4). lia.
Defined.

(** X13. Every duty cycle from 0 to 255 is the analog output of some ADC
    code, in both sketches. *)
Theorem analog_output_onto (d : Z) (Hd : 0 <= d <= 255) :
  exists r : Z,
    0 <= r <= 1023 /\ Single.analogOutput r = d /\ Dual.analogOutput r = d.
Proof.
  exists ((d * 1023 + 254) / 255).
  assert (R : 0 <= (d * 1023 + 254) / 255 <= 1023)
    by (Z.div_mod_to_equations; lia).
  split; [exact R | ].
  rewrite (single_analogOutput_eq _ R), (dual_analogOutput_eq _ R).
  split; Z.div_mod_to_equations; lia.
Qed.

Lemma analog_output_onto_witness :
  0 <= 204 <= 255
  /\ exists r : Z,
       0 <= r <= 1023 /\ Single.analogOutput r = 204 /\ Dual.analogOutput r = 204.
Proof.
  split; [lia | ].
  apply (analog_output_onto 204). lia.
Defined.

Lemma map_uint16 (r : Z) :
  0 <= r <= 65535 -> map r 0 1023 0 255 = r * 255 / 1023.
Proof.
  intros H.
  assert (Hq : 0 <= r * 255 / 1023 <= 16336) by (Z.div_mod_to_equations; lia).
  assert (L : forall z, -2147483648 <= z <= 2147483647 -> to_long z = z).
  { intros z Hz. apply to_long_id. unfold in_long, long_min, long_max.
    change (2 ^ 31) with 2147483648. lia. }
  unfold map.
  rewrite (L (r - 0)) by lia.
  rewrite (L (255 - 0)) by lia.
  rewrite (L (1023 - 0)) by lia.
  replace (r - 0) with r by lia.
  change (255 - 0) with 255. change (1023 - 0) with 1023.
  rewrite (L (r * 255)) by lia.
  rewrite Z.quot_div_nonneg by lia.
  rewrite (L (r * 255 / 1023)) by lia.
  rewrite Z.add_0_r. apply L. lia.
Qed.

(** X14. [map] does not clamp.  On any 16-bit code the rescale is computed
    without overflow of the [long] arithmetic, but the store into the 8-bit
    [analogOutput] keeps it only up to code 1027: from code 1028 on the
    duty cycle wraps around modulo 256.  The duty a single-channel round
    writes is, for any value the converter returns, within 0..255. *)
Theorem analog_output_wraps (r : Z) (Hr : 0 <= r <= 65535) :
  map r 0 1023 0 255 = r * 255 / 1023
  /\ Single.analogOutput r = (r * 255 / 1023) mod 256
  /\ Dual.analogOutput r = (r * 255 / 1023) mod 256
  /\ (Single.analogOutput r = r * 255 / 1023 <-> r <= 1027)
  /\ (forall (e : env) (s : Single.globals * cursor),
         exists d, Obs.duties ANALOG_OUTPUT_PIN (trace Single.loop_body e s) = [d]
                   /\ 0 <= d <= 255).
Proof.
  pose proof (map_uint16 r Hr) as Hm.
  unfold Single.analogOutput, Dual.analogOutput, to_uint8. rewrite Hm.
  split; [reflexivity | split; [reflexivity | split; [reflexivity | split]]].
  - split; intros H.
    + destruct (Z_le_gt_dec r 1027) as [Hle | Hgt]; [exact Hle | exfalso].
      pose proof (Z.mod_pos_bound (r * 255 / 1023) 256 ltac:(lia)) as Hb.
      rewrite H in Hb. revert Hb. Z.div_mod_to_equations. lia.
    + apply Z.mod_small. Z.div_mod_to_equations. lia.
  - intros e s. rewrite single_round_duty. eexists. split; [reflexivity | ].
    unfold Single.analogOutput, to_uint8.
    pose proof (Z.mod_pos_bound (map (to_uint16 (adc_in e (adc_k (snd s)))) 0 1023 0 255)
                  256 ltac:(lia)). lia.
Qed.

Lemma analog_output_wraps_witness :
  0 <= 1028 <= 65535
  /\ Single.analogOutput 1028 = (1028 * 255 / 1023) mod 256.
Proof.
  split; [lia | ].
  pose proof (analog_output_wraps 1028 ltac:(lia)) as H.
  apply H.
Defined.

End Resolution.

(** ** The limit LED of the dual-channel sketch, by codes *)

Section DualLimit.





End DualLimit.

(** ** Outputs round by round *)

Section RoundByRound.

Lemma single_loop_outputs (n : nat) (e : env) :
  forall s : Single.globals * cursor,
    Obs.duties ANALOG_OUTPUT_PIN (trace (Single.loop n) e s) =
      List.map (fun k => Single.analogOutput (to_uint16 (adc_in e k)))
               (seq (adc_k (snd s)) n)
    /\ Obs.writes_to LED_LIMIT (trace (Single.loop n) e s) =
       List.map (fun k => Single.limit_level
                            (Single.knock_percentage (to_uint16 (adc_in e k))))
                (seq (adc_k (snd s)) n).
Proof.
  unfold Single.loop. induction n as [ | n IH]; intros s.
  - split; reflexivity.
  - rewrite trace_forever_S, duties_app, writes_to_app.
    rewrite single_round_duty, single_round_limit.
    destruct (IH (state_after Single.loop_body e s)) as [-> ->].
    rewrite single_loop_body_state. split; reflexivity.
Qed.

Lemma dual_loop_outputs (n : nat) (e : env) :
  forall s : Dual.globals * cursor,
    Obs.duties ANALOG_OUTPUT_PIN (trace (Dual.loop n) e s) =
      List.map Dual.analogOutput (Watch.dual_codes e (adc_k (snd s)) n)
    /\ Obs.writes_to LED_LIMIT (trace (Dual.loop n) e s) =
       List.map (fun c => Dual.limit_level (Dual.analogOutput c))
                (Watch.dual_codes e (adc_k (snd s)) n).
Proof.
  unfold Dual.loop. induction n as [ | n IH]; intros s.
  - split; reflexivity.
  - rewrite trace_forever_S, duties_app, writes_to_app.
    rewrite dual_round_duty, dual_round_limit.
    destruct (IH (state_after Dual.loop_body e s)) as [-> ->].
    rewrite dual_loop_body_state. split; reflexivity.
Qed.

(** X16. Over any number of rounds each round writes the analog output
    once and the limit LED once, and both depend on that round's own
    conversions only (one per round in the single-channel sketch, the larger
    of two in the dual-channel one): nothing is latched, averaged or held
    over from an earlier round. *)
Theorem outputs_round_by_round (n : nat) (e : env)
  (s1 : Single.globals * cursor) (s2 : Dual.globals * cursor) :
  Obs.duties ANALOG_OUTPUT_PIN (trace (Single.loop n) e s1) =
    List.map (fun k => Single.analogOutput (to_uint16 (adc_in e k)))
             (seq (adc_k (snd s1)) n)
  /\ Obs.writes_to LED_LIMIT (trace (Single.loop n) e s1) =
     List.map (fun k => Single.limit_level
                          (Single.knock_percentage (to_uint16 (adc_in e k))))
              (seq (adc_k (snd s1)) n)
  /\ Obs.duties ANALOG_OUTPUT_PIN (trace (Dual.loop n) e s2) =
     List.map Dual.analogOutput (Watch.dual_codes e (adc_k (snd s2)) n)
  /\ Obs.writes_to LED_LIMIT (trace (Dual.loop n) e s2) =
     List.map (fun c => Dual.limit_level (Dual.analogOutput c))
              (Watch.dual_codes e (adc_k (snd s2)) n).
Proof.
  destruct (single_loop_outputs n e s1) as [H1 H2].
  destruct (dual_loop_outputs n e s2) as [H3 H4].
  repeat split; assumption.
Qed.

End RoundByRound.

(** ** The responses of the SPU *)

Section Responses.

Lemma byte_kept (z : Z) : to_uint8 (to_uint16 (to_uint8 z)) = to_uint8 z.
Proof.
  unfold to_uint8, to_uint16.
  pose proof (Z.mod_pos_bound z 256 ltac:(lia)) as H.
  rewrite (Z.mod_small (z mod 256) 65536) by lia.
  apply Z.mod_small. exact H.
Qed.

Lemma single_COM_SPI_result (tx : Z) (e : env) (s : Single.globals * cursor) :
  result (Single.COM_SPI tx) e s = to_uint8 (spi_rx e (spi_k (snd s))).
Proof. destruct s as [[] [i j k]], e as [rx adc sd]. reflexivity. Qed.

Lemma dual_COM_SPI_result (tx : Z) (e : env) (s : Dual.globals * cursor) :
  result (Dual.COM_SPI tx) e s = to_uint8 (spi_rx e (spi_k (snd s))).
Proof.
  destruct s as [[b] [i j k]], e as [rx adc sd]. unfold result.
  run_round. apply byte_kept.
Qed.

Lemma single_setup_hex (e : env) (s : Single.globals * cursor) :
  Watch.hex_printed (trace Single.setup e s) =
  List.map (fun k => to_uint8 (spi_rx e k)) (seq (spi_k (snd s)) 5).
Proof. destruct s as [[] [i j k]], e as [rx adc sd]. reflexivity. Qed.

Lemma dual_setup_hex (e : env) (s : Dual.globals * cursor) :
  Watch.hex_printed (trace Dual.setup e s) =
  List.map (fun k => to_uint8 (spi_rx e k)) (seq (spi_k (snd s)) 4).
Proof.
  destruct s as [[b] [i j k]], e as [rx adc sd]. unfold trace.
  run_round. destruct (sd k); cbn [List.map seq]; rewrite !byte_kept; reflexivity.
Qed.

Lemma dual_round_hex (e : env) (s : Dual.globals * cursor) :
  Watch.hex_printed (trace Dual.loop_body e s) = [].
Proof.
  destruct s as [[b] [i j k]], e as [rx adc sd]. unfold trace.
  destruct b; run_round; [destruct (sd k) | ]; reflexivity.
Qed.

(** X17. [COM_SPI] returns the byte the SPU shifted back, a value within
    0..255, whatever byte was sent; in the dual-channel sketch the passage
    through a 16-bit variable loses nothing.  The hexadecimal numbers
    printed at start-up are the SPU's responses to the configuration bytes,
    one per byte and in the order sent; the responses to the channel selects
    of a dual-channel round are not printed. *)
Theorem spu_responses_echoed (tx : Z) (e : env)
  (s1 : Single.globals * cursor) (s2 : Dual.globals * cursor) :
  result (Single.COM_SPI tx) e s1 = to_uint8 (spi_rx e (spi_k (snd s1)))
  /\ result (Dual.COM_SPI tx) e s2 = to_uint8 (spi_rx e (spi_k (snd s2)))
  /\ 0 <= result (Single.COM_SPI tx) e s1 <= 255
  /\ 0 <= result (Dual.COM_SPI tx) e s2 <= 255
  /\ Watch.hex_printed (trace Single.setup e s1) =
     List.map (fun k => to_uint8 (spi_rx e k)) (seq (spi_k (snd s1)) 5)
  /\ Watch.hex_printed (trace Dual.setup e s2) =
     List.map (fun k => to_uint8 (spi_rx e k)) (seq (spi_k (snd s2)) 4)
  /\ Watch.hex_printed (trace Dual.loop_body e s2) = [].
Proof.
  rewrite single_COM_SPI_result, dual_COM_SPI_result.
  assert (B : forall z, 0 <= to_uint8 z <= 255).
  { intros z. unfold to_uint8. pose proof (Z.mod_pos_bound z 256 ltac:(lia)). lia. }
  split; [reflexivity | split; [reflexivity | ]].
  split; [apply B | split; [apply B | ]].
  split; [apply single_setup_hex | split; [apply dual_setup_hex | apply dual_round_hex]].
Qed.

End Responses.

(** ** The pins the rounds leave alone *)

Section Pins.

Lemma forever_writes {G : Type} (pin : Z) (body : M G unit) (e : env) (w : list level)
  (Hbody : forall s, Obs.writes_to pin (trace body e s) = w) (n : nat) :
  forall s, Obs.writes_to pin (trace (forever body n) e s) = List.concat (repeat w n).
Proof.
  induction n as [ | n IH]; intros s.
  - reflexivity.
  - rewrite trace_forever_S, writes_to_app, Hbody, IH. reflexivity.
Qed.

Lemma heartbeat_repeat (n : nat) : List.concat (repeat [HIGH; LOW] n) = Obs.heartbeat n.
Proof. induction n as [ | n IH]; simpl; [ | rewrite IH]; reflexivity. Qed.

Lemma concat_repeat_nil {A : Type} (n : nat) : List.concat (repeat (@nil A) n) = [].
Proof. induction n as [ | n IH]; simpl; [ | rewrite IH]; reflexivity. Qed.

Lemma single_round_pins (e : env) (s : Single.globals * cursor) :
  Obs.writes_to LED_STATUS (trace Single.loop_body e s) = [HIGH; LOW]
  /\ Obs.writes_to SPU_TEST_PIN (trace Single.loop_body e s) = []
  /\ Obs.writes_to SPU_NSS_PIN (trace Single.loop_body e s) = [].
Proof. destruct s as [[] [i j k]], e as [rx adc sd]. repeat split; reflexivity. Qed.

Lemma dual_round_pins (e : env) (s : Dual.globals * cursor) :
  Obs.writes_to SPU_TEST_PIN (trace Dual.loop_body e s) = []
  /\ Obs.writes_to SDCARD_CS_PIN (trace Dual.loop_body e s) = [].
Proof.
  destruct s as [[b] [i j k]], e as [rx adc sd]. unfold trace.
  destruct b; run_round; [destruct (sd k) | ]; split; reflexivity.
Qed.

Lemma single_setup_pins (e : env) (s : Single.globals * cursor) :
  Obs.writes_to LED_STATUS (trace Single.setup e s) = [HIGH; LOW]
  /\ Obs.writes_to LED_LIMIT (trace Single.setup e s) = [HIGH; LOW]
  /\ Obs.writes_to SPU_TEST_PIN (trace Single.setup e s) = [HIGH].
Proof. destruct s as [[] [i j k]], e as [rx adc sd]. repeat split; reflexivity. Qed.

Lemma dual_setup_pins (e : env) (s : Dual.globals * cursor) :
  Obs.writes_to LED_STATUS (trace Dual.setup e s) = [HIGH; LOW]
  /\ Obs.writes_to LED_LIMIT (trace Dual.setup e s) = [HIGH; LOW]
  /\ Obs.writes_to SPU_TEST_PIN (trace Dual.setup e s) = [HIGH]
  /\ Obs.writes_to SDCARD_CS_PIN (trace Dual.setup e s) = [HIGH].
Proof.
  destruct s as [[b] [i j k]], e as [rx adc sd]. unfold trace.
  run_round. destruct (sd k); repeat split; reflexivity.
Qed.

(** X18. Over a whole run of either sketch the status LED is switched on
    and off once at start-up and once in every round, ending off; the test
    pin is driven high once at start-up and never written again; and the
    dual-channel sketch itself drives the card's chip select high once at
    start-up and never low. *)
Theorem pins_over_a_run (n : nat) (e : env) :
  Obs.writes_to LED_STATUS (trace (Single.sketch n) e Single.init)
  = HIGH :: LOW :: Obs.heartbeat n
  /\ Obs.writes_to LED_STATUS (trace (Dual.sketch n) e Dual.init)
     = HIGH :: LOW :: Obs.heartbeat n
  /\ Obs.writes_to SPU_TEST_PIN (trace (Single.sketch n) e Single.init) = [HIGH]
  /\ Obs.writes_to SPU_TEST_PIN (trace (Dual.sketch n) e Dual.init) = [HIGH]
  /\ Obs.writes_to SDCARD_CS_PIN (trace (Dual.sketch n) e Dual.init) = [HIGH].
Proof.
  unfold Single.sketch, Dual.sketch, Single.loop, Dual.loop.
  rewrite !trace_bind, !writes_to_app.
  destruct (single_setup_pins e Single.init) as [-> [_ ->]].
  destruct (dual_setup_pins e Dual.init) as [-> [_ [-> ->]]].
  rewrite (forever_writes LED_STATUS Single.loop_body e [HIGH; LOW]
             (fun s => proj1 (single_round_pins e s))).
  rewrite (forever_writes LED_STATUS Dual.loop_body e [HIGH; LOW] (dual_round_status e)).
  rewrite (forever_writes SPU_TEST_PIN Single.loop_body e []
             (fun s => proj1 (proj2 (single_round_pins e s)))).
  rewrite (forever_writes SPU_TEST_PIN Dual.loop_body e []
             (fun s => proj1 (dual_round_pins e s))).
  rewrite (forever_writes SDCARD_CS_PIN Dual.loop_body e []
             (fun s => proj2 (dual_round_pins e s))).
  rewrite !heartbeat_repeat, !concat_repeat_nil.
  repeat split; reflexivity.
Qed.

End Pins.

(** ** What a run consumes *)

Section Consumption.

Lemma dual_loop_state (n : nat) (e : env) :
  forall s : Dual.globals * cursor,
    state_after (Dual.loop n) e s =
    (fst s, Cursor (2 * n + spi_k (snd s)) (2 * n + adc_k (snd s))
                   (if Dual.logEnabled (fst s) then n + sd_k (snd s) else sd_k (snd s))).
Proof.
  unfold Dual.loop. induction n as [ | n IH]; intros s.
  - destruct s as [[b] [i j k]]. destruct b; reflexivity.
  - rewrite state_after_forever_S, IH, dual_loop_body_state.
    cbn [fst snd spi_k adc_k sd_k].
    destruct (Dual.logEnabled (fst s)); f_equal; f_equal; lia.
Qed.

(** X19. A run of [n] rounds of the dual-channel sketch makes [4 + 2n] SPI
    transfers and [2n] conversions, and probes the card once at start-up
    and then once per round if that first probe succeeded, and never again
    if it failed. *)
Theorem dual_run_consumption (n : nat) (e : env) :
  snd (state_after (Dual.sketch n) e Dual.init) =
  Cursor (4 + 2 * n) (2 * n) (if sd_present e 0%nat then S n else 1).
Proof.
  unfold Dual.sketch. rewrite state_after_bind, dual_loop_state, dual_setup_at_init.
  cbn [fst snd spi_k adc_k sd_k Dual.logEnabled].
  destruct (sd_present e 0%nat); f_equal; lia.
Qed.

End Consumption.
